(** * The Arabic word game (script.js): a shallow embedding and its properties

    The repository ships two variants of [script.js].  The first one
    (lines 1-151) plays against a built-in word list and insists that a
    checked word has three Arabic characters.  The second one (lines
    152-469) adds the teacher panel (add / export / import), keeps the
    dictionary in [localStorage] and no longer checks the format of a
    played word.  The pure helpers are textually the same in both and are
    embedded once; the stateful handlers live in the modules [Basic] and
    [Teacher]. *)

From Stdlib Require Import ZArith List Bool Lia Decimal.
From stdpp Require Import base option list strings gmap.

Local Open Scope Z_scope.

(** ** JavaScript strings

    A JavaScript string is a sequence of UTF-16 code units; [length],
    [trim], [split], [includes], [===] and a regular expression without the
    [u] flag all work on code units.  Every character the game cares about
    is in the Basic Multilingual Plane, where a character is one code
    unit. *)

Abbreviation jsstring := (list Z).

Definition LF : Z := 10.

(** [s1 === s2] on strings. *)
Definition str_eqb (s1 s2 : jsstring) : bool :=
  bool_decide (s1 = s2).

(** ** [String.prototype.trim]

    [trim] strips WhiteSpace and LineTerminator code points from both
    ends (ECMAScript, TrimString). *)

Definition isWhiteSpace (c : Z) : bool :=
  (c =? 0x0009) || (c =? 0x000A) || (c =? 0x000B) || (c =? 0x000C) ||
  (c =? 0x000D) || (c =? 0x0020) || (c =? 0x00A0) || (c =? 0x1680) ||
  ((0x2000 <=? c) && (c <=? 0x200A)) ||
  (c =? 0x2028) || (c =? 0x2029) || (c =? 0x202F) || (c =? 0x205F) ||
  (c =? 0x3000) || (c =? 0xFEFF).

Fixpoint trimStart (s : jsstring) : jsstring :=
  match s with
  | c :: s' => if isWhiteSpace c then trimStart s' else s
  | [] => []
  end.

Definition trimEnd (s : jsstring) : jsstring :=
  rev (trimStart (rev s)).

Definition trim (s : jsstring) : jsstring :=
  trimEnd (trimStart s).

(** ** The format check

    [const arabicRegex = /^[\u0621-\u064A\u0660-\u0669]+$/;] *)

Definition arabicClass (c : Z) : bool :=
  ((0x0621 <=? c) && (c <=? 0x064A)) || ((0x0660 <=? c) && (c <=? 0x0669)).

(** The input that is left after the longest run of class members: the
    greedy [+] of the pattern. *)
Fixpoint class_run (s : jsstring) : jsstring :=
  match s with
  | c :: s' => if arabicClass c then class_run s' else s
  | [] => []
  end.

(** [arabicRegex.test(s)].  The pattern is anchored at both ends and has
    neither the [g] nor the [m] flag: the match starts at index 0, takes
    one class member, then as many as there are, and [$] asks for the end
    of the input.  Giving code units back cannot help, since the position
    reached by a shorter run is not the end of the input either. *)
Definition arabicRegex_test (s : jsstring) : bool :=
  match s with
  | c :: s' =>
      arabicClass c && match class_run s' with [] => true | _ :: _ => false end
  | [] => false
  end.

(** [function isValidWordFormat(word)
      { return word.length === 3 && arabicRegex.test(word); }] *)
Definition isValidWordFormat (word : jsstring) : bool :=
  (length word =? 3)%nat && arabicRegex_test word.

(** [Array.prototype.includes] on an array of strings, searched for a
    string: SameValueZero is string equality there. *)
Fixpoint includes (d : list jsstring) (w : jsstring) : bool :=
  match d with
  | x :: d' => str_eqb x w || includes d' w
  | [] => false
  end.

(** ** Text form of the dictionary *)

(** [ws.join('\n')], as [exportDictionary] builds the file content. *)
Fixpoint join_LF (ws : list jsstring) : jsstring :=
  match ws with
  | [] => []
  | w :: ws' =>
      match ws' with
      | [] => w
      | _ :: _ => w ++ LF :: join_LF ws'
      end
  end.

(** [s.split('\n')]: the pieces between the line feeds, one more than
    there are line feeds; the empty string gives one empty piece. *)
Fixpoint split_LF (s : jsstring) : list jsstring :=
  match s with
  | [] => [[]]
  | c :: s' =>
      if c =? LF then [] :: split_LF s'
      else match split_LF s' with
           | piece :: pieces => (c :: piece) :: pieces
           | [] => [[c]]
           end
  end.

(** The expression both loaders use (the [fetch] continuation of
    [initGame] and [reader.onload] of [handleFileImport]):
    [content.trim().split('\n').map(word => word.trim())
       .filter(word => word.length > 0)] *)
Definition importedWords (content : jsstring) : list jsstring :=
  List.filter (fun word => (0 <? length word)%nat)
    (map (fun word => trim word) (split_LF (trim content))).

(** An entry that is neither empty nor starts or ends with white space
    (so it is not made of white space only). *)
Definition well_trimmed (w : jsstring) : bool :=
  match head w, last w with
  | Some c1, Some c2 => negb (isWhiteSpace c1) && negb (isWhiteSpace c2)
  | _, _ => false
  end.

Definition single_line (w : jsstring) : bool :=
  forallb (fun c => negb (c =? LF)) w.

(** ** What the page shows

    Text that is plain ASCII in the source is written as a Rocq string and
    turned into code units; the Arabic literals are given by their code
    units, with the literal in the comment. *)

Definition units (s : string) : jsstring :=
  map (fun a => Z.of_nat (Ascii.nat_of_ascii a)) (String.list_ascii_of_string s).

Fixpoint uint_units (d : Decimal.uint) : jsstring :=
  match d with
  | Decimal.Nil => []
  | Decimal.D0 d => 48 :: uint_units d
  | Decimal.D1 d => 49 :: uint_units d
  | Decimal.D2 d => 50 :: uint_units d
  | Decimal.D3 d => 51 :: uint_units d
  | Decimal.D4 d => 52 :: uint_units d
  | Decimal.D5 d => 53 :: uint_units d
  | Decimal.D6 d => 54 :: uint_units d
  | Decimal.D7 d => 55 :: uint_units d
  | Decimal.D8 d => 56 :: uint_units d
  | Decimal.D9 d => 57 :: uint_units d
  end.

(** ** JavaScript numbers

    [score] and the amounts added to it are JavaScript numbers, IEEE 754
    doubles.  The game only meets integers, and the model keeps to the
    doubles that are integers: a double holds every integer up to 2^53 in
    magnitude, and beyond that only the integers whose 53 leading binary
    digits are followed by zeros.  [to_double z] is the double nearest to
    the integer [z], a tie going to the even significand (round to nearest,
    ties to even).  Magnitudes of 2^1024 and more, which the code turns
    into Infinity, are not covered. *)
Definition to_double (z : Z) : Z :=
  let a := Z.abs z in
  if a <? 2 ^ 53 then z
  else
    let e := Z.log2 a - 52 in
    let q := a / 2 ^ e in
    let r := a mod 2 ^ e in
    let up := (2 ^ (e - 1) <? r) || ((r =? 2 ^ (e - 1)) && Z.odd q) in
    Z.sgn z * ((if up then q + 1 else q) * 2 ^ e).

(** [a + b] on numbers that are integers. *)
Definition number_add (a b : Z) : Z := to_double (a + b).

(** The decimal digits of a non-negative integer. *)
Definition decimal_digits (a : Z) : jsstring :=
  uint_units (N.to_uint (Z.to_N a)).

(** The shortest decimal numeral that reads back as the double [a]
    (Number::toString, step 5): for [k] = 1, 2, ... significant digits,
    the two multiples of 10^(n-k) around [a] are tried, [n] being the
    number of digits of [a]; the first that rounds to [a] is taken, the
    nearer one if both do.  Seventeen digits always suffice for a double;
    [fuel] counts the sizes still to try. *)
Fixpoint shortest_numeral (fuel : nat) (k : Z) (a : Z) : Z :=
  match fuel with
  | O => a
  | S fuel' =>
      let n := Z.of_nat (length (decimal_digits a)) in
      let scale := 10 ^ (n - k) in
      let lo := a / scale * scale in
      let hi := lo + scale in
      match to_double lo =? a, to_double hi =? a with
      | true, true => if a - lo <=? hi - a then lo else hi
      | true, false => lo
      | false, true => hi
      | false, false => shortest_numeral fuel' (k + 1) a
      end
  end.

Fixpoint strip_zeros_at_end (digits : jsstring) : jsstring :=
  match digits with
  | [] => []
  | d :: rest =>
      match strip_zeros_at_end rest with
      | [] => if d =? 48 then [] else [d]
      | kept => d :: kept
      end
  end.

(** The text of a positive integer double (Number::toString, radix 10).
    Up to 2^53 the numeral is the integer itself.  Above, it is the
    shortest numeral that reads back as the number; with at most 21
    digits it is written out in full, and beyond that in exponent form:
    the first digit, a point and the other significant digits if there
    are any, then e+ and the exponent. *)
Definition positive_toString (a : Z) : jsstring :=
  if a <=? 2 ^ 53 then decimal_digits a
  else
    let digits := decimal_digits (shortest_numeral 17 1 a) in
    let n := length digits in
    if (n <=? 21)%nat then digits
    else
      match strip_zeros_at_end digits with
      | [] => digits
      | d :: more =>
          d :: (match more with [] => [] | _ :: _ => 46 :: more end)
            ++ [101; 43] ++ decimal_digits (Z.of_nat (n - 1))
      end.

(** The text of a number that is an integer, as [textContent = score] and
    [${importedWords.length}] produce it. *)
Definition Number_toString (n : Z) : jsstring :=
  match n with
  | Z0 => [48]
  | Zpos _ => positive_toString n
  | Zneg _ => 45 :: positive_toString (- n)
  end.

(** An element of the page: what it displays (set through [textContent]
    or through [innerHTML]) and its [className]. *)
Inductive content :=
  | TextContent (text : jsstring)
  | InnerHTML (markup : jsstring).

Record element := Element {
  shown : content;
  className : jsstring
}.

(** The outcome kinds of [checkWord].  The handler itself returns
    nothing; the kind names the branch it took and comes with the state
    that the branch leaves. *)
Inductive Outcome :=
  | EmptyInput
  | InvalidFormat
  | Correct
  | Incorrect.

#[global] Instance Outcome_eq_dec : EqDecision Outcome.
Proof. solve_decision. Defined.

(** ['يرجى إدخال كلمة!'] *)
Definition msg_enter_a_word : jsstring :=
    [1610; 1585; 1580; 1609; 32; 1573; 1583; 1582; 1575; 1604; 32; 1603;
     1604; 1605; 1577; 33].

(** ['الكلمة يجب أن تكون مكونة من 3 أحرف عربية فقط!'] *)
Definition msg_three_arabic_letters : jsstring :=
    [1575; 1604; 1603; 1604; 1605; 1577; 32; 1610; 1580; 1576; 32; 1571;
     1606; 32; 1578; 1603; 1608; 1606; 32; 1605; 1603; 1608; 1606; 1577;
     32; 1605; 1606; 32; 51; 32; 1571; 1581; 1585; 1601; 32; 1593; 1585;
     1576; 1610; 1577; 32; 1601; 1602; 1591; 33].

(** [const encouragementMessages = ['أحسنت! 🌟', 'ممتاز! 👍', 'رائع جداً! 🎉', 'عمل جميل! ✨', 'أنت ذكي! 🧠'];]
    (the emoji outside the Basic Multilingual Plane are surrogate pairs) *)
Definition encouragementMessages : list jsstring :=
  [
    [1571; 1581; 1587; 1606; 1578; 33; 32; 55356; 57119];
    [1605; 1605; 1578; 1575; 1586; 33; 32; 55357; 56397];
    [1585; 1575; 1574; 1593; 32; 1580; 1583; 1575; 1611; 33; 32; 55356;
     57225];
    [1593; 1605; 1604; 32; 1580; 1605; 1610; 1604; 33; 32; 10024];
    [1571; 1606; 1578; 32; 1584; 1603; 1610; 33; 32; 55358; 56800]
  ].

(** the pieces of the template [`${randomMessage} الكلمة "${word}" صحيحة.`] *)
Definition tpl_correct_1 : jsstring :=
    [32; 1575; 1604; 1603; 1604; 1605; 1577; 32; 34].

(** second piece of the same template *)
Definition tpl_correct_2 : jsstring :=
    [34; 32; 1589; 1581; 1610; 1581; 1577; 46].

(** the pieces of [`الكلمة "${word}" غير موجودة في القاموس. حاول مرة أخرى!`] *)
Definition tpl_incorrect_1 : jsstring :=
    [1575; 1604; 1603; 1604; 1605; 1577; 32; 34].

(** second piece of the same template *)
Definition tpl_incorrect_2 : jsstring :=
    [34; 32; 1594; 1610; 1585; 32; 1605; 1608; 1580; 1608; 1583; 1577;
     32; 1601; 1610; 32; 1575; 1604; 1602; 1575; 1605; 1608; 1587; 46;
     32; 1581; 1575; 1608; 1604; 32; 1605; 1585; 1577; 32; 1571; 1582;
     1585; 1609; 33].

(** [encouragementMessages[i]] for the index
    [i = Math.floor(Math.random() * encouragementMessages.length)]; an
    index past the end reads [undefined], which a template prints as
    the text undefined. *)
Definition randomMessage (i : nat) : jsstring :=
  nth i encouragementMessages (units "undefined").

Definition tpl_correct (randomMessage word : jsstring) : jsstring :=
  randomMessage ++ tpl_correct_1 ++ word ++ tpl_correct_2.

Definition tpl_incorrect (word : jsstring) : jsstring :=
  tpl_incorrect_1 ++ word ++ tpl_incorrect_2.

(** [restrictToArabic(event)]: true when the key press is suppressed.
    [String.fromCharCode] keeps the low 16 bits of [event.which]. *)
Definition restrictToArabic (which : Z) : bool :=
  negb (arabicRegex_test [which mod 65536]).

(** ** The first variant: built-in dictionary, format enforced
    (script.js, lines 1-151) *)

Module Basic.

(** [const predefinedDictionary = [ ... ];], twenty entries *)
Definition predefinedDictionary : list jsstring :=
  [
    [1603; 1578; 1576]; (* كتب *)
    [1604; 1593; 1576]; (* لعب *)
    [1584; 1607; 1576]; (* ذهب *)
    [1580; 1604; 1587]; (* جلس *)
    [1601; 1578; 1581]; (* فتح *)
    [1593; 1604; 1605]; (* علم *)
    [1583; 1585; 1587]; (* درس *)
    [1602; 1585; 1571]; (* قرأ *)
    [1606; 1575; 1605]; (* نام *)
    [1571; 1603; 1604]; (* أكل *)
    [1588; 1585; 1576]; (* شرب *)
    [1585; 1603; 1590]; (* ركض *)
    [1587; 1576; 1581]; (* سبح *)
    [1594; 1606; 1609]; (* غنى *)
    [1585; 1587; 1605]; (* رسم *)
    [1602; 1589; 1577]; (* قصة *)
    [1602; 1604; 1605]; (* قلم *)
    [1603; 1578; 1575; 1576]; (* كتاب *)
    [1605; 1583; 1585; 1587; 1577]; (* مدرسة *)
    [1591; 1575; 1604; 1576] (* طالب *)
  ].

(** The globals [score] (a number that is an integer) and [dictionary],
    and the parts of the page the handlers read or write. *)
Record State := mkState {
  score : Z;
  dictionary : list jsstring;
  wordInput_value : jsstring;
  resultArea : element;
  scoreDisplay_textContent : jsstring
}.

(** [let score = 0; let dictionary = [];] over the page as the markup
    gives it. *)
Definition initial (wordInput0 : jsstring) (resultArea0 : element)
    (scoreDisplay0 : jsstring) : State :=
  {| score := 0;
     dictionary := [];
     wordInput_value := wordInput0;
     resultArea := resultArea0;
     scoreDisplay_textContent := scoreDisplay0 |}.

Definition set_dictionary (d : list jsstring) (s : State) : State :=
  {| score := score s;
     dictionary := d;
     wordInput_value := wordInput_value s;
     resultArea := resultArea s;
     scoreDisplay_textContent := scoreDisplay_textContent s |}.

Definition set_wordInput_value (v : jsstring) (s : State) : State :=
  {| score := score s;
     dictionary := dictionary s;
     wordInput_value := v;
     resultArea := resultArea s;
     scoreDisplay_textContent := scoreDisplay_textContent s |}.

Definition set_resultArea (e : element) (s : State) : State :=
  {| score := score s;
     dictionary := dictionary s;
     wordInput_value := wordInput_value s;
     resultArea := e;
     scoreDisplay_textContent := scoreDisplay_textContent s |}.

(** [function initGame()]: [dictionary = predefinedDictionary;].  Nothing
    in the [try] block throws, so the [catch] with its error markup is
    never entered. *)
Definition initGame (s : State) : State :=
  set_dictionary predefinedDictionary s.

(** [function isWordInDictionary(word) { return dictionary.includes(word); }] *)
Definition isWordInDictionary (word : jsstring) (s : State) : bool :=
  includes (dictionary s) word.

(** [function updateScore(points)
      { score += points; scoreDisplay.textContent = score; }], for an
    amount that is an integer: the sum is rounded as a double is. *)
Definition updateScore (points : Z) (s : State) : State :=
  {| score := number_add (score s) points;
     dictionary := dictionary s;
     wordInput_value := wordInput_value s;
     resultArea := resultArea s;
     scoreDisplay_textContent := Number_toString (number_add (score s) points) |}.

(** [function showResult(message, className)] *)
Definition showResult (message className : jsstring) (s : State) : State :=
  set_resultArea
    {| shown := TextContent message;
       className := units "result-area " ++ className |} s.

(** [function checkWord()], lines 80-123.  [pick] is the index
    [Math.floor(Math.random() * encouragementMessages.length)] that the
    run draws when it reaches the Correct branch. *)
Definition checkWord (pick : nat) (s : State) : Outcome * State :=
  let word := trim (wordInput_value s) in
  let s :=
    set_resultArea
      {| shown := shown (resultArea s); className := units "result-area" |} s in
  if str_eqb word [] then
    (EmptyInput, showResult msg_enter_a_word (units "incorrect") s)
  else if negb (isValidWordFormat word) then
    (InvalidFormat, showResult msg_three_arabic_letters (units "incorrect") s)
  else
    let (kind, s) :=
      if isWordInDictionary word s then
        let s := updateScore 1 s in
        (Correct,
         showResult (tpl_correct (randomMessage pick) word) (units "correct") s)
      else
        (Incorrect, showResult (tpl_incorrect word) (units "incorrect") s) in
    (kind, set_wordInput_value [] s).

(** [checkWord] run with [rawInput] in the word field. *)
Definition checkWord_of (rawInput : jsstring) (pick : nat) (s : State)
    : Outcome * State :=
  checkWord pick (set_wordInput_value rawInput s).

(** What can happen on the page once it is loaded: the player edits the
    word field (typing, where [restrictToArabic] filters key presses, or
    pasting, where it does not), or asks for a check (the button, or Enter
    in the field). *)
Inductive event :=
  | EditWord (value : jsstring)
  | ClickCheck (pick : nat).

Definition handle (e : event) (s : State) : State :=
  match e with
  | EditWord value => set_wordInput_value value s
  | ClickCheck pick => snd (checkWord pick s)
  end.

(** The states of a session: [initGame] runs on [DOMContentLoaded], then
    the events come one at a time. *)
Inductive reachable : State -> Prop :=
  | reach_loaded wordInput0 resultArea0 scoreDisplay0 :
      reachable (initGame (initial wordInput0 resultArea0 scoreDisplay0))
  | reach_event e s :
      reachable s -> reachable (handle e s).

End Basic.

(** ** The second variant: teacher panel, persistence, no format check on
    a played word (script.js, lines 152-469) *)

Module Teacher.

(** What [localStorage] holds under a key.  The script only ever stores
    [JSON.stringify(dictionary)] and reads it back with [JSON.parse]; the
    JSON text of an array of strings is kept as that array, [JSON.parse]
    of it giving the array back.  A stored value can also be the empty
    string, which [if (savedDictionary)] takes for absent, or text that
    [JSON.parse] rejects with a SyntaxError.  One kind of stored text has
    no place here: JSON text of something that is not an array of strings
    (null, a number, a string, an object, an array with other elements).
    The script would make that value the dictionary, without a fetch and
    without an error; the model types [dictionary] as an array of strings
    and does not start from such a storage. *)
Inductive blob :=
  | EmptyText
  | JsonArray (words : list jsstring)
  | Malformed.

Definition truthy (b : blob) : bool :=
  match b with
  | EmptyText => false
  | JsonArray _ | Malformed => true
  end.

Definition JSON_stringify (d : list jsstring) : blob := JsonArray d.

(** [None]: [JSON.parse] throws. *)
Definition JSON_parse (b : blob) : option (list jsstring) :=
  match b with
  | JsonArray d => Some d
  | EmptyText | Malformed => None
  end.

(** What the script asks of the browser, in the order it asks. *)
Inductive effect :=
  | Fetch (url : string)
  | Download (filename : string) (text : jsstring)
  | OpenFilePicker
  | ConsoleError (what : string).

(** the markup [initGame] shows from its [catch] *)
Definition msg_load_error : jsstring :=
    [60; 112; 32; 115; 116; 121; 108; 101; 61; 34; 99; 111; 108; 111;
     114; 58; 32; 114; 101; 100; 59; 34; 62; 1582; 1591; 1571; 32; 1601;
     1610; 32; 1578; 1581; 1605; 1610; 1604; 32; 1575; 1604; 1602; 1575;
     1605; 1608; 1587; 33; 32; 1610; 1585; 1580; 1609; 32; 1575; 1604;
     1578; 1571; 1603; 1583; 32; 1605; 1606; 32; 1608; 1580; 1608; 1583;
     32; 1605; 1604; 1601; 32; 119; 111; 114; 100; 115; 46; 116; 120;
     116; 60; 47; 112; 62].

(** the pieces of [`الكلمة "${newWord}" موجودة بالفعل في القاموس!`] *)
Definition tpl_exists_1 : jsstring :=
    [1575; 1604; 1603; 1604; 1605; 1577; 32; 34].

(** second piece of the same template *)
Definition tpl_exists_2 : jsstring :=
    [34; 32; 1605; 1608; 1580; 1608; 1583; 1577; 32; 1576; 1575; 1604;
     1601; 1593; 1604; 32; 1601; 1610; 32; 1575; 1604; 1602; 1575; 1605;
     1608; 1587; 33].

(** the pieces of [`تمت إضافة الكلمة "${newWord}" بنجاح إلى القاموس!`] *)
Definition tpl_added_1 : jsstring :=
    [1578; 1605; 1578; 32; 1573; 1590; 1575; 1601; 1577; 32; 1575; 1604;
     1603; 1604; 1605; 1577; 32; 34].

(** second piece of the same template *)
Definition tpl_added_2 : jsstring :=
    [34; 32; 1576; 1606; 1580; 1575; 1581; 32; 1573; 1604; 1609; 32;
     1575; 1604; 1602; 1575; 1605; 1608; 1587; 33].

(** ['تم تصدير القاموس بنجاح!'] *)
Definition msg_exported : jsstring :=
    [1578; 1605; 32; 1578; 1589; 1583; 1610; 1585; 32; 1575; 1604; 1602;
     1575; 1605; 1608; 1587; 32; 1576; 1606; 1580; 1575; 1581; 33].

(** ['حدث خطأ أثناء تصدير القاموس!'] *)
Definition msg_export_error : jsstring :=
    [1581; 1583; 1579; 32; 1582; 1591; 1571; 32; 1571; 1579; 1606; 1575;
     1569; 32; 1578; 1589; 1583; 1610; 1585; 32; 1575; 1604; 1602; 1575;
     1605; 1608; 1587; 33].

(** the pieces of [`تم استيراد ${importedWords.length} كلمة بنجاح!`] *)
Definition tpl_imported_1 : jsstring :=
    [1578; 1605; 32; 1575; 1587; 1578; 1610; 1585; 1575; 1583; 32].

(** second piece of the same template *)
Definition tpl_imported_2 : jsstring :=
    [32; 1603; 1604; 1605; 1577; 32; 1576; 1606; 1580; 1575; 1581; 33].

(** ['حدث خطأ أثناء استيراد القاموس!'] *)
Definition msg_import_error : jsstring :=
    [1581; 1583; 1579; 32; 1582; 1591; 1571; 32; 1571; 1579; 1606; 1575;
     1569; 32; 1575; 1587; 1578; 1610; 1585; 1575; 1583; 32; 1575; 1604;
     1602; 1575; 1605; 1608; 1587; 33].

(** ['حدث خطأ أثناء قراءة الملف!'] *)
Definition msg_read_error : jsstring :=
    [1581; 1583; 1579; 32; 1582; 1591; 1571; 32; 1571; 1579; 1606; 1575;
     1569; 32; 1602; 1585; 1575; 1569; 1577; 32; 1575; 1604; 1605; 1604;
     1601; 33].

Definition tpl_exists (newWord : jsstring) : jsstring :=
  tpl_exists_1 ++ newWord ++ tpl_exists_2.

Definition tpl_added (newWord : jsstring) : jsstring :=
  tpl_added_1 ++ newWord ++ tpl_added_2.

Definition tpl_imported (count : nat) : jsstring :=
  tpl_imported_1 ++ Number_toString (Z.of_nat count) ++ tpl_imported_2.

(** The elements of the page that the handlers read or write. *)
Record Page := mkPage {
  wordInput_value : jsstring;
  newWordInput_value : jsstring;
  resultArea : element;
  teacherResultArea : element;
  scoreDisplay_textContent : jsstring;
  teacherPanel_hidden : bool
}.

(** The globals [score] (a number that is an integer) and [dictionary],
    the page, the browser's [localStorage], whether [initGame] is
    suspended at its [await], and the requests made so far (latest
    first). *)
Record State := mkState {
  score : Z;
  dictionary : list jsstring;
  page : Page;
  localStorage : gmap string blob;
  awaiting_fetch : bool;
  requests : list effect
}.

(** [let score = 0; let dictionary = [];] over the page as the markup
    gives it and the storage as earlier sessions left it. *)
Definition initial (page0 : Page) (storage : gmap string blob) : State :=
  {| score := 0;
     dictionary := [];
     page := page0;
     localStorage := storage;
     awaiting_fetch := false;
     requests := [] |}.

Definition set_dictionary (d : list jsstring) (s : State) : State :=
  {| score := score s;
     dictionary := d;
     page := page s;
     localStorage := localStorage s;
     awaiting_fetch := awaiting_fetch s;
     requests := requests s |}.

Definition set_page (p : Page) (s : State) : State :=
  {| score := score s;
     dictionary := dictionary s;
     page := p;
     localStorage := localStorage s;
     awaiting_fetch := awaiting_fetch s;
     requests := requests s |}.

Definition set_awaiting_fetch (b : bool) (s : State) : State :=
  {| score := score s;
     dictionary := dictionary s;
     page := page s;
     localStorage := localStorage s;
     awaiting_fetch := b;
     requests := requests s |}.

Definition request (e : effect) (s : State) : State :=
  {| score := score s;
     dictionary := dictionary s;
     page := page s;
     localStorage := localStorage s;
     awaiting_fetch := awaiting_fetch s;
     requests := e :: requests s |}.

(** [localStorage.setItem(key, value)] when the browser accepts the
    write. *)
Definition setItem (key : string) (value : blob) (s : State) : State :=
  {| score := score s;
     dictionary := dictionary s;
     page := page s;
     localStorage := <[key := value]> (localStorage s);
     awaiting_fetch := awaiting_fetch s;
     requests := requests s |}.

Definition set_wordInput_value (v : jsstring) (s : State) : State :=
  set_page
    {| wordInput_value := v;
       newWordInput_value := newWordInput_value (page s);
       resultArea := resultArea (page s);
       teacherResultArea := teacherResultArea (page s);
       scoreDisplay_textContent := scoreDisplay_textContent (page s);
       teacherPanel_hidden := teacherPanel_hidden (page s) |} s.

Definition set_newWordInput_value (v : jsstring) (s : State) : State :=
  set_page
    {| wordInput_value := wordInput_value (page s);
       newWordInput_value := v;
       resultArea := resultArea (page s);
       teacherResultArea := teacherResultArea (page s);
       scoreDisplay_textContent := scoreDisplay_textContent (page s);
       teacherPanel_hidden := teacherPanel_hidden (page s) |} s.

Definition set_resultArea (e : element) (s : State) : State :=
  set_page
    {| wordInput_value := wordInput_value (page s);
       newWordInput_value := newWordInput_value (page s);
       resultArea := e;
       teacherResultArea := teacherResultArea (page s);
       scoreDisplay_textContent := scoreDisplay_textContent (page s);
       teacherPanel_hidden := teacherPanel_hidden (page s) |} s.

Definition set_teacherResultArea (e : element) (s : State) : State :=
  set_page
    {| wordInput_value := wordInput_value (page s);
       newWordInput_value := newWordInput_value (page s);
       resultArea := resultArea (page s);
       teacherResultArea := e;
       scoreDisplay_textContent := scoreDisplay_textContent (page s);
       teacherPanel_hidden := teacherPanel_hidden (page s) |} s.

Definition set_scoreDisplay_textContent (v : jsstring) (s : State) : State :=
  set_page
    {| wordInput_value := wordInput_value (page s);
       newWordInput_value := newWordInput_value (page s);
       resultArea := resultArea (page s);
       teacherResultArea := teacherResultArea (page s);
       scoreDisplay_textContent := v;
       teacherPanel_hidden := teacherPanel_hidden (page s) |} s.

(** The [catch] of [initGame]: [console.error(...)] and the error markup
    in the result area. *)
Definition initGame_catch (s : State) : State :=
  set_resultArea
    {| shown := InnerHTML msg_load_error;
       className := className (resultArea (page s)) |}
    (request (ConsoleError "Error loading dictionary:") s).

(** [async function initGame()] up to the point where it either returns
    or is suspended at [await fetch('words.txt')]. *)
Definition initGame (s : State) : State :=
  let fetch_default (s : State) :=
    set_awaiting_fetch true (request (Fetch "words.txt") s) in
  match localStorage s !! "arabicDictionary" with
  | Some savedDictionary =>
      if truthy savedDictionary then
        match JSON_parse savedDictionary with
        | Some d => set_dictionary d s
        | None => initGame_catch s
        end
      else fetch_default s
  | None => fetch_default s
  end.

(** The rest of [initGame], run when the fetch settles: [text] is the
    body of the response, [None] stands for a rejected [fetch] or
    [response.text()]. *)
Definition initGame_resume (text : option jsstring) (s : State) : State :=
  let s := set_awaiting_fetch false s in
  match text with
  | Some text => set_dictionary (importedWords text) s
  | None => initGame_catch s
  end.

(** [function isWordInDictionary(word) { return dictionary.includes(word); }] *)
Definition isWordInDictionary (word : jsstring) (s : State) : bool :=
  includes (dictionary s) word.

(** [function updateScore(points)
      { score += points; scoreDisplay.textContent = score; }], for an
    amount that is an integer: the sum is rounded as a double is. *)
Definition updateScore (points : Z) (s : State) : State :=
  let s :=
    {| score := number_add (score s) points;
       dictionary := dictionary s;
       page := page s;
       localStorage := localStorage s;
       awaiting_fetch := awaiting_fetch s;
       requests := requests s |} in
  set_scoreDisplay_textContent (Number_toString (score s)) s.

(** [function showResult(message, className)] *)
Definition showResult (message className : jsstring) (s : State) : State :=
  set_resultArea
    {| shown := TextContent message;
       className := units "result-area " ++ className |} s.

(** [function showTeacherResult(message, className)] *)
Definition showTeacherResult (message className : jsstring) (s : State) : State :=
  set_teacherResultArea
    {| shown := TextContent message;
       className := units "teacher-result-area " ++ className |} s.

(** [function toggleTeacherPanel()] *)
Definition toggleTeacherPanel (s : State) : State :=
  set_page
    {| wordInput_value := wordInput_value (page s);
       newWordInput_value := newWordInput_value (page s);
       resultArea := resultArea (page s);
       teacherResultArea := teacherResultArea (page s);
       scoreDisplay_textContent := scoreDisplay_textContent (page s);
       teacherPanel_hidden := negb (teacherPanel_hidden (page s)) |} s.

(** The results of [addNewWord]; as for [checkWord], the kind names the
    branch taken. *)
Inductive AddResult :=
  | AddEmptyInput
  | AddInvalidFormat
  | AlreadyExists
  | Added.

(** [function addNewWord()].  [persist_ok] says whether
    [localStorage.setItem] returns (true) or throws (false, for instance
    when the quota is exceeded); the throw is caught and logged. *)
Definition addNewWord (persist_ok : bool) (s : State) : AddResult * State :=
  let newWord := trim (newWordInput_value (page s)) in
  if str_eqb newWord [] then
    (AddEmptyInput,
     showTeacherResult msg_enter_a_word (units "teacher-error") s)
  else if negb (isValidWordFormat newWord) then
    (AddInvalidFormat,
     showTeacherResult msg_three_arabic_letters (units "teacher-error") s)
  else if isWordInDictionary newWord s then
    (AlreadyExists,
     showTeacherResult (tpl_exists newWord) (units "teacher-error") s)
  else
    let s := set_dictionary (dictionary s ++ [newWord]) s in
    let s := showTeacherResult (tpl_added newWord) (units "teacher-success") s in
    let s := set_newWordInput_value [] s in
    if persist_ok then
      (Added, setItem "arabicDictionary" (JSON_stringify (dictionary s)) s)
    else
      (Added, request (ConsoleError "Error saving dictionary to localStorage:") s).

(** [function exportDictionary()].  [download_ok] is false when building
    or clicking the download link throws. *)
Definition exportDictionary (download_ok : bool) (s : State) : State :=
  let content := join_LF (dictionary s) in
  if download_ok then
    showTeacherResult msg_exported (units "teacher-success")
      (request (Download "words_updated.txt" content) s)
  else
    showTeacherResult msg_export_error (units "teacher-error")
      (request (ConsoleError "Error exporting dictionary:") s).

(** [function importDictionary() { importDictionaryInput.click(); }] *)
Definition importDictionary (s : State) : State :=
  request OpenFilePicker s.

(** What the file picker and the [FileReader] hand to [handleFileImport]. *)
Inductive FileRead :=
  | NoFile
  | ReadError
  | Loaded (content : jsstring).

Inductive ImportResult :=
  | NothingChosen
  | Imported (count : nat)
  | ImportFailed
  | FileReadFailure.

(** [reader.onload]: the dictionary is replaced first, then saved; a
    throw of [setItem] lands in the [catch] of the handler.  (Clearing the
    file input afterwards changes nothing the handlers read.) *)
Definition reader_onload (persist_ok : bool) (content : jsstring) (s : State)
    : ImportResult * State :=
  let importedWords := importedWords content in
  let s := set_dictionary importedWords s in
  if persist_ok then
    let s := setItem "arabicDictionary" (JSON_stringify (dictionary s)) s in
    (Imported (length importedWords),
     showTeacherResult (tpl_imported (length importedWords))
       (units "teacher-success") s)
  else
    (ImportFailed,
     showTeacherResult msg_import_error (units "teacher-error")
       (request (ConsoleError "Error importing dictionary:") s)).

(** [reader.onerror] *)
Definition reader_onerror (s : State) : ImportResult * State :=
  (FileReadFailure, showTeacherResult msg_read_error (units "teacher-error") s).

(** [function handleFileImport(event)], with the callback that the reader
    ends up calling. *)
Definition handleFileImport (persist_ok : bool) (file : FileRead) (s : State)
    : ImportResult * State :=
  match file with
  | NoFile => (NothingChosen, s)
  | ReadError => reader_onerror s
  | Loaded content => reader_onload persist_ok content s
  end.

(** [function checkWord()], lines 386-429: the format check is commented
    out.  [pick] is the index
    [Math.floor(Math.random() * encouragementMessages.length)]. *)
Definition checkWord (pick : nat) (s : State) : Outcome * State :=
  let word := trim (wordInput_value (page s)) in
  let s :=
    set_resultArea
      {| shown := shown (resultArea (page s));
         className := units "result-area" |} s in
  if str_eqb word [] then
    (EmptyInput, showResult msg_enter_a_word (units "incorrect") s)
  else
    let (kind, s) :=
      if isWordInDictionary word s then
        let s := updateScore 1 s in
        (Correct,
         showResult (tpl_correct (randomMessage pick) word) (units "correct") s)
      else
        (Incorrect, showResult (tpl_incorrect word) (units "incorrect") s) in
    (kind, set_wordInput_value [] s).

(** [checkWord] run with [rawInput] in the word field, and [addNewWord]
    run with [rawInput] in the new-word field. *)
Definition checkWord_of (rawInput : jsstring) (pick : nat) (s : State)
    : Outcome * State :=
  checkWord pick (set_wordInput_value rawInput s).

Definition addNewWord_of (rawInput : jsstring) (persist_ok : bool) (s : State)
    : AddResult * State :=
  addNewWord persist_ok (set_newWordInput_value rawInput s).

(** What can happen once the page is loaded.  The browser runs one
    handler at a time to its end; the settled fetch of [initGame] is one
    more event, which may come after clicks. *)
Inductive event :=
  | EditWord (value : jsstring)
  | EditNewWord (value : jsstring)
  | ClickCheck (pick : nat)
  | ClickToggle
  | ClickAdd (persist_ok : bool)
  | ClickExport (download_ok : bool)
  | ClickImport
  | FileChange (persist_ok : bool) (file : FileRead)
  | FetchSettled (text : option jsstring).

Definition handle (e : event) (s : State) : State :=
  match e with
  | EditWord value => set_wordInput_value value s
  | EditNewWord value => set_newWordInput_value value s
  | ClickCheck pick => snd (checkWord pick s)
  | ClickToggle => toggleTeacherPanel s
  | ClickAdd persist_ok => snd (addNewWord persist_ok s)
  | ClickExport download_ok => exportDictionary download_ok s
  | ClickImport => importDictionary s
  | FileChange persist_ok file => snd (handleFileImport persist_ok file s)
  | FetchSettled text =>
      if awaiting_fetch s then initGame_resume text s else s
  end.

(** The states of a session: [initGame] runs on [DOMContentLoaded], then
    the events come one at a time. *)
Inductive reachable : State -> Prop :=
  | reach_loaded page0 storage :
      reachable (initGame (initial page0 storage))
  | reach_event e s :
      reachable s -> reachable (handle e s).

(** A run of events, first event first. *)
Definition run (es : list event) (s : State) : State :=
  fold_left (fun s e => handle e s) es s.

End Teacher.

(** ** Vocabulary of the statements *)

(** The two ranges of the character class. *)
Definition in_arabic_ranges (c : Z) : Prop :=
  0x0621 <= c <= 0x064A \/ 0x0660 <= c <= 0x0669.

(** The words of the examples: "كتب" and "xyz". *)
Definition kataba : jsstring := [1603; 1578; 1576].
Definition xyz : jsstring := [120; 121; 122].

(** The entries of the built-in list that are longer than three
    characters: "كتاب", "مدرسة" and "طالب". *)
Definition kitab : jsstring := [1603; 1578; 1575; 1576].
Definition madrasa : jsstring := [1605; 1583; 1585; 1587; 1577].
Definition talib : jsstring := [1591; 1575; 1604; 1576].

(** The file of the import example, "ابج\nبجد\n\n", and its two words. *)
Definition abj : jsstring := [1575; 1576; 1580].
Definition bjd : jsstring := [1576; 1580; 1583].
Definition example_file : jsstring :=
  [1575; 1576; 1580; 10; 1576; 1580; 1583; 10; 10].

(** Concrete states for the examples: a blank page, the first variant
    after [initGame], and the second variant holding just "كتب". *)
Definition blank : element :=
  {| shown := TextContent []; className := [] |}.

Definition basic_loaded : Basic.State :=
  Basic.initGame (Basic.initial [] blank []).

Definition blank_page : Teacher.Page :=
  {| Teacher.wordInput_value := [];
     Teacher.newWordInput_value := [];
     Teacher.resultArea := blank;
     Teacher.teacherResultArea := blank;
     Teacher.scoreDisplay_textContent := [];
     Teacher.teacherPanel_hidden := true |}.

Definition teacher_with_kataba : Teacher.State :=
  Teacher.set_dictionary [kataba] (Teacher.initial blank_page ∅).

(** The score after an event: one more after a check that came out
    Correct, unchanged otherwise. *)
Definition Teacher_gain (e : Teacher.event) (s : Teacher.State) : Z :=
  match e with
  | Teacher.ClickCheck pick =>
      if Outcome_eq_dec (fst (Teacher.checkWord pick s)) Correct then 1 else 0
  | _ => 0
  end.

Definition Basic_gain (e : Basic.event) (s : Basic.State) : Z :=
  match e with
  | Basic.ClickCheck pick =>
      if Outcome_eq_dec (fst (Basic.checkWord pick s)) Correct then 1 else 0
  | Basic.EditWord _ => 0
  end.

(** A text made of white space only (the empty text included). *)
Definition all_space (s : jsstring) : bool :=
  forallb isWhiteSpace s.

(** An entry that survives the text form: not empty, no white space at
    either end, no line feed inside. *)
Definition clean (w : jsstring) : bool :=
  well_trimmed w && single_line w.

(** The lines of a text that are not blank, each trimmed: what
    [.map(word => word.trim()).filter(word => word.length > 0)] keeps of
    the pieces. *)
Definition trimmed_lines (pieces : list jsstring) : list jsstring :=
  List.filter (fun word => (0 <? length word)%nat)
    (map (fun word => trim word) pieces).

(** A run of events in the first variant, first event first. *)
Definition Basic_run (es : list Basic.event) (s : Basic.State) : Basic.State :=
  fold_left (fun s e => Basic.handle e s) es s.

(** How many checks a run asks for. *)
Definition Teacher_checks (es : list Teacher.event) : nat :=
  length (List.filter
            (fun e => match e with Teacher.ClickCheck _ => true | _ => false end)
            es).

Definition Basic_checks (es : list Basic.event) : nat :=
  length (List.filter
            (fun e => match e with Basic.ClickCheck _ => true | _ => false end)
            es).

(** Events other than the settling of the start-up fetch. *)
Definition not_settling (e : Teacher.event) : bool :=
  match e with
  | Teacher.FetchSettled _ => false
  | _ => true
  end.

(** The second variant with "كتب" saved in the storage, after "كتب" has
    been typed and checked [n] times with the random index 0: [n] Correct
    checks in a row. *)
Definition teacher_after_checks (n : Z) : Teacher.State :=
  {| Teacher.score := n;
     Teacher.dictionary := [kataba];
     Teacher.page :=
       {| Teacher.wordInput_value := [];
          Teacher.newWordInput_value := [];
          Teacher.resultArea :=
            {| shown := TextContent (tpl_correct (randomMessage 0) kataba);
               className := units "result-area correct" |};
          Teacher.teacherResultArea := blank;
          Teacher.scoreDisplay_textContent := Number_toString n;
          Teacher.teacherPanel_hidden := true |};
     Teacher.localStorage := {[ "arabicDictionary" := Teacher.JsonArray [kataba] ]};
     Teacher.awaiting_fetch := false;
     Teacher.requests := [] |}.

(** The same session once the score has reached 2^53. *)
Definition teacher_at_limit : Teacher.State :=
  teacher_after_checks (2 ^ 53).

(** ** Lemmas on the pure helpers *)

Lemma arabicClass_spec c : arabicClass c = true <-> in_arabic_ranges c.
Proof. unfold arabicClass, in_arabic_ranges. lia. Qed.

Lemma class_run_nil s : class_run s = [] <-> Forall in_arabic_ranges s.
Proof.
  induction s as [|c s IH]; simpl.
  - split; [constructor | reflexivity].
  - destruct (arabicClass c) eqn:Hc.
    + rewrite IH. split.
      * intros H. constructor; [by apply arabicClass_spec | done].
      * by inversion 1.
    + split; [discriminate |].
      inversion 1 as [|? ? Hin _]; subst.
      apply arabicClass_spec in Hin. congruence.
Qed.

Lemma arabicRegex_test_spec s :
  arabicRegex_test s = true <-> s <> [] /\ Forall in_arabic_ranges s.
Proof.
  destruct s as [|c s]; simpl.
  - split; [discriminate | by intros [? _]].
  - rewrite andb_true_iff, arabicClass_spec. split.
    + intros [Hc Hrun]. split; [done |].
      constructor; [done |]. apply class_run_nil.
      by destruct (class_run s).
    + intros [_ Hall]. inversion Hall as [|? ? Hc Hs]; subst.
      split; [done |]. apply class_run_nil in Hs. by rewrite Hs.
Qed.

Lemma isValidWordFormat_true word :
  isValidWordFormat word = true <->
  length word = 3%nat /\ Forall in_arabic_ranges word.
Proof.
  unfold isValidWordFormat.
  rewrite andb_true_iff, Nat.eqb_eq, arabicRegex_test_spec.
  split; [tauto |]. intros [Hlen Hall]. repeat split; try done.
  intros ->. discriminate.
Qed.

(** C2.  [isValidWordFormat] answers true exactly for the strings of three
    code units that all lie in U+0621..U+064A or U+0660..U+0669; for a
    string of another length, or with a code unit outside the two ranges,
    it answers false. *)
Theorem isValidWordFormat_iff (word : jsstring) :
  (isValidWordFormat word = true <->
     length word = 3%nat /\ Forall in_arabic_ranges word) /\
  (isValidWordFormat word = false <->
     length word <> 3%nat \/ Exists (fun c => ~ in_arabic_ranges c) word).
Proof.
  split; [apply isValidWordFormat_true |].
  rewrite <- not_true_iff_false, isValidWordFormat_true. split.
  - intros Hn. destruct (decide (length word = 3%nat)) as [Hlen|]; [right | by left].
    apply not_Forall_Exists.
    + intros c. unfold in_arabic_ranges. apply _.
    + tauto.
  - intros [Hlen | Hex] [Hl Hall]; [done |].
    apply Exists_exists in Hex as (c & Hin & Hc).
    rewrite Forall_forall in Hall. apply Hc, Hall, Hin.
Qed.

Example valid_kataba : isValidWordFormat kataba = true.
Proof. reflexivity. Qed.

Example valid_arabic_indic_digits :
  isValidWordFormat [0x0660; 0x0665; 0x0669] = true.
Proof. reflexivity. Qed.

Example invalid_latin : isValidWordFormat xyz = false.
Proof. reflexivity. Qed.

Example invalid_four_letters : isValidWordFormat kitab = false.
Proof. reflexivity. Qed.

(** U+064B (fathatan) is the first code point past the letter range. *)
Example invalid_diacritic : isValidWordFormat [0x0643; 0x064B; 0x0628] = false.
Proof. reflexivity. Qed.

(** ** Trimming and line splitting *)

Lemma trimStart_keep c s :
  isWhiteSpace c = false -> trimStart (c :: s) = c :: s.
Proof. intros Hc. simpl. by rewrite Hc. Qed.

Lemma trimEnd_keep s c :
  last s = Some c -> isWhiteSpace c = false -> trimEnd s = s.
Proof.
  intros Hlast Hc. apply last_Some in Hlast as [s' ->].
  unfold trimEnd. rewrite rev_app_distr. simpl. rewrite Hc.
  change (rev (rev [c] ++ rev s') = s' ++ [c]).
  by rewrite <- rev_app_distr, rev_involutive.
Qed.

Lemma trim_keep s c1 c2 :
  head s = Some c1 -> last s = Some c2 ->
  isWhiteSpace c1 = false -> isWhiteSpace c2 = false ->
  trim s = s.
Proof.
  intros Hh Hl H1 H2. unfold trim.
  destruct s as [|c s]; [done |]. simpl in Hh. injection Hh as ->.
  rewrite trimStart_keep by done. by eapply trimEnd_keep.
Qed.

Lemma well_trimmed_spec w :
  well_trimmed w = true <->
  exists c1 c2, head w = Some c1 /\ last w = Some c2 /\
                isWhiteSpace c1 = false /\ isWhiteSpace c2 = false.
Proof.
  unfold well_trimmed. split.
  - destruct (head w) as [c1|], (last w) as [c2|]; try discriminate.
    rewrite andb_true_iff, !negb_true_iff. intros [? ?]. by exists c1, c2.
  - intros (c1 & c2 & -> & -> & -> & ->). done.
Qed.

Lemma well_trimmed_trim w : well_trimmed w = true -> trim w = w.
Proof.
  intros (c1 & c2 & ? & ? & ? & ?)%well_trimmed_spec. by eapply trim_keep.
Qed.

Lemma well_trimmed_nonempty w : well_trimmed w = true -> w <> [].
Proof. by intros (c1 & c2 & ? & ? & ? & ?)%well_trimmed_spec ->. Qed.

Lemma split_LF_single w : single_line w = true -> split_LF w = [w].
Proof.
  induction w as [|c w IH]; simpl; [done |].
  rewrite andb_true_iff, negb_true_iff. intros [-> Hw]. by rewrite IH.
Qed.

Lemma split_LF_line w rest :
  single_line w = true -> split_LF (w ++ LF :: rest) = w :: split_LF rest.
Proof.
  induction w as [|c w IH]; simpl; [done |].
  rewrite andb_true_iff, negb_true_iff. intros [-> Hw]. by rewrite IH.
Qed.

Lemma split_join_LF words :
  words <> [] -> Forall (fun w => single_line w = true) words ->
  split_LF (join_LF words) = words.
Proof.
  induction words as [|w words IH]; [done |]. intros _ Hall.
  inversion Hall as [|? ? Hw Hws]; subst.
  destruct words as [|w2 words]; simpl.
  - by apply split_LF_single.
  - rewrite split_LF_line by done. f_equal. by apply IH.
Qed.

Lemma head_join_LF w words c :
  head w = Some c -> head (join_LF (w :: words)) = Some c.
Proof. destruct w, words; simpl; congruence. Qed.

Lemma join_LF_cons w w2 words :
  join_LF (w :: w2 :: words) = w ++ LF :: join_LF (w2 :: words).
Proof. reflexivity. Qed.

Lemma join_LF_nonempty w words : w <> [] -> join_LF (w :: words) <> [].
Proof. destruct w, words; simpl; congruence. Qed.

Lemma last_join_LF words w c :
  Forall (fun w => w <> []) words ->
  last words = Some w -> last w = Some c ->
  last (join_LF words) = Some c.
Proof.
  induction words as [|w1 words IH]; [done |]. intros Hall Hw Hc.
  inversion Hall as [|? ? Hw1 Hws]; subst.
  destruct words as [|w2 words].
  - simpl in *. congruence.
  - rewrite last_cons_cons in Hw.
    rewrite join_LF_cons, last_app_cons, last_cons.
    by rewrite (IH Hws Hw Hc).
Qed.

(** ** Adding to a number *)

Lemma number_add_exact a b :
  - 2 ^ 53 <= a + b <= 2 ^ 53 -> number_add a b = a + b.
Proof.
  intros Hr. unfold number_add, to_double.
  destruct (Z.abs (a + b) <? 2 ^ 53) eqn:Hlt; [reflexivity |].
  assert (H : a + b = 2 ^ 53 \/ a + b = - 2 ^ 53) by lia.
  destruct H as [-> | ->]; reflexivity.
Qed.

Lemma number_add_at_limit : number_add (2 ^ 53) 1 = 2 ^ 53.
Proof. reflexivity. Qed.

Lemma number_add_one s :
  - 2 ^ 53 <= s <= 2 ^ 53 ->
  s <= number_add s 1 <= s + 1 /\ - 2 ^ 53 <= number_add s 1 <= 2 ^ 53.
Proof.
  intros Hs. destruct (decide (s = 2 ^ 53)) as [-> | Hne].
  - rewrite number_add_at_limit. lia.
  - rewrite number_add_exact by lia. lia.
Qed.

Lemma number_add_one_below s :
  - 2 ^ 53 <= s < 2 ^ 53 -> number_add s 1 = s + 1.
Proof. intros Hs. apply number_add_exact. lia. Qed.

(** Up to 2^53 every integer is a number; above, the odd ones are not,
    and a tie goes to the even significand. *)
Example doubles_around_limit :
  map to_double [2 ^ 53 - 1; 2 ^ 53; 2 ^ 53 + 1; 2 ^ 53 + 2; 2 ^ 53 + 3]
  = [2 ^ 53 - 1; 2 ^ 53; 2 ^ 53; 2 ^ 53 + 2; 2 ^ 53 + 4].
Proof. reflexivity. Qed.

(** 2^53, 2^64 and 2^70 as the script would show them: 9007199254740992,
    18446744073709552000 and 1.1805916207174113e+21. *)
Example number_texts :
  map Number_toString [-50; 0; 2 ^ 53; 2 ^ 64; 2 ^ 70]
  = [units "-50"; units "0"; units "9007199254740992";
     units "18446744073709552000"; units "1.1805916207174113e+21"].
Proof. reflexivity. Qed.


(** C3, as amended.  For every sequence of entries that are non-empty,
    neither start nor end with white space and contain no line feed,
    reading back the exported text ([join] with a line feed, then trim,
    split at line feeds, trim each line, drop the empty ones) gives the
    sequence itself. *)
Theorem export_import_roundtrip (words : list jsstring) :
  Forall (fun w => well_trimmed w = true) words ->
  Forall (fun w => single_line w = true) words ->
  importedWords (join_LF words) = words.
Proof.
  intros Htrim Hline. unfold importedWords.
  destruct words as [|w words]; [reflexivity |].
  assert (Hne : Forall (fun w => w <> []) (w :: words)).
  { eapply Forall_impl; [exact Htrim |]. apply well_trimmed_nonempty. }
  assert (Hjoin : trim (join_LF (w :: words)) = join_LF (w :: words)).
  { assert (Hw : well_trimmed w = true) by (by inversion Htrim).
    apply well_trimmed_spec in Hw as (c1 & _ & Hc1 & _ & Hws1 & _).
    destruct (last (w :: words)) as [wl|] eqn:Hlast; [| by apply last_None in Hlast].
    assert (Hl : well_trimmed wl = true).
    { apply (proj1 (Forall_forall _ _) Htrim).
      apply last_Some in Hlast as [l' ->]. set_solver. }
    apply well_trimmed_spec in Hl as (_ & c2 & _ & Hc2 & _ & Hws2).
    eapply trim_keep; eauto using head_join_LF, last_join_LF. }
  rewrite Hjoin, split_join_LF by done.
  clear Hjoin Hline Hne. induction Htrim as [|x xs Hx _ IH]; [reflexivity |].
  simpl. rewrite (well_trimmed_trim x Hx).
  destruct x; [by apply well_trimmed_nonempty in Hx |].
  simpl. by f_equal.
Qed.

(** The round trip on the two words "ابج" and "بجد". *)
Lemma export_import_roundtrip_witness :
  importedWords (join_LF [[0x0627; 0x0628; 0x062C]; [0x0628; 0x062C; 0x062F]])
  = [[0x0627; 0x0628; 0x062C]; [0x0628; 0x062C; 0x062F]].
Proof.
  apply (export_import_roundtrip
           [[0x0627; 0x0628; 0x062C]; [0x0628; 0x062C; 0x062F]]).
  - repeat constructor.
  - repeat constructor.
Defined.

(** C3, as first stated, fails: an entry with a line feed inside has no
    white space at either end, yet it comes back as two entries. *)
Lemma roundtrip_breaks_on_inner_line_feed :
  let words := [[0x0627; LF; 0x0628]] in
  Forall (fun w => well_trimmed w = true) words /\
  importedWords (join_LF words) = [[0x0627]; [0x0628]] /\
  importedWords (join_LF words) <> words.
Proof. repeat split; [repeat constructor | discriminate]. Qed.

(** ** Checking a word *)

Lemma includes_In d w : includes d w = true <-> In w d.
Proof.
  induction d as [|x d IH]; simpl; [done |].
  rewrite orb_true_iff, IH. unfold str_eqb. by rewrite bool_decide_eq_true.
Qed.

Lemma includes_app d w : includes (d ++ [w]) w = true.
Proof. apply includes_In, in_app_iff. right. by left. Qed.

Lemma arabicClass_not_space c : arabicClass c = true -> isWhiteSpace c = false.
Proof. unfold arabicClass, isWhiteSpace. lia. Qed.

Lemma valid_format_well_trimmed w :
  isValidWordFormat w = true -> well_trimmed w = true.
Proof.
  intros [Hlen Hall]%isValidWordFormat_true.
  destruct w as [|c1 [|c2 [|c3 [|]]]]; try discriminate.
  inversion Hall as [|? ? H1 Hall2]; subst.
  inversion Hall2 as [|? ? H2 Hall3]; subst.
  inversion Hall3 as [|? ? H3 _]; subst.
  apply arabicClass_spec, arabicClass_not_space in H1, H3.
  unfold well_trimmed. simpl. by rewrite H1, H3.
Qed.

Lemma valid_format_trim w : isValidWordFormat w = true -> trim w = w.
Proof. intros H. by apply well_trimmed_trim, valid_format_well_trimmed. Qed.

Lemma valid_format_nonempty w : isValidWordFormat w = true -> w <> [].
Proof. intros H. by apply well_trimmed_nonempty, valid_format_well_trimmed. Qed.

Lemma str_eqb_nil w : str_eqb w [] = false <-> w <> [].
Proof. unfold str_eqb. by rewrite bool_decide_eq_false. Qed.

(** What [checkWord] does, branch by branch, in the variant that checks
    the format. *)
Lemma Basic_checkWord_cases rawInput pick s :
  let word := trim rawInput in
  let r := Basic.checkWord_of rawInput pick s in
  Basic.dictionary (snd r) = Basic.dictionary s /\
  (fst r =
     if str_eqb word [] then EmptyInput
     else if negb (isValidWordFormat word) then InvalidFormat
     else if includes (Basic.dictionary s) word then Correct else Incorrect) /\
  Basic.score (snd r) =
    (if Outcome_eq_dec (fst r) Correct then number_add (Basic.score s) 1
     else Basic.score s).
Proof.
  unfold Basic.checkWord_of, Basic.checkWord, Basic.isWordInDictionary.
  cbn [Basic.wordInput_value Basic.set_wordInput_value Basic.set_resultArea
       Basic.dictionary].
  destruct (str_eqb _ []); [done |].
  destruct (isValidWordFormat _); [| done].
  by destruct (includes _ _).
Qed.

(** The same for the variant with the teacher panel: no format branch. *)
Lemma Teacher_checkWord_cases rawInput pick s :
  let word := trim rawInput in
  let r := Teacher.checkWord_of rawInput pick s in
  Teacher.dictionary (snd r) = Teacher.dictionary s /\
  Teacher.localStorage (snd r) = Teacher.localStorage s /\
  Teacher.requests (snd r) = Teacher.requests s /\
  Teacher.awaiting_fetch (snd r) = Teacher.awaiting_fetch s /\
  (fst r =
     if str_eqb word [] then EmptyInput
     else if includes (Teacher.dictionary s) word then Correct else Incorrect) /\
  Teacher.score (snd r) =
    (if Outcome_eq_dec (fst r) Correct then number_add (Teacher.score s) 1
     else Teacher.score s).
Proof.
  unfold Teacher.checkWord_of, Teacher.checkWord, Teacher.isWordInDictionary.
  cbn [Teacher.wordInput_value Teacher.set_wordInput_value Teacher.set_page
       Teacher.page Teacher.set_resultArea Teacher.dictionary].
  destruct (str_eqb _ []); [done |].
  by destruct (includes _ _).
Qed.

Lemma trim_kataba : trim kataba = kataba.
Proof. reflexivity. Qed.

(** C1, as amended.  With "كتب" in the dictionary, [checkWord] on "كتب"
    is Correct and runs [score += 1], in both variants; that adds exactly
    1 to the score as long as the score is below 2^53 (a score of 2^53
    stays as it is).  In the variant without the format check, an input
    whose trimmed text is not empty and not in the dictionary is Incorrect
    and the score stays.  In the variant with the format check this holds
    for an input whose trimmed text has the valid format; any other
    non-blank input (such as "xyz") is InvalidFormat there, again with the
    score unchanged. *)
Theorem checkWord_outcomes
    (rawInput : jsstring) (pick : nat) (t : Teacher.State) (b : Basic.State) :
  let word := trim rawInput in
  (In kataba (Teacher.dictionary t) ->
     fst (Teacher.checkWord_of kataba pick t) = Correct /\
     Teacher.score (snd (Teacher.checkWord_of kataba pick t))
       = Teacher.score (Teacher.updateScore 1 t) /\
     (- 2 ^ 53 <= Teacher.score t < 2 ^ 53 ->
        Teacher.score (snd (Teacher.checkWord_of kataba pick t))
          = Teacher.score t + 1) /\
     (Teacher.score t = 2 ^ 53 ->
        Teacher.score (snd (Teacher.checkWord_of kataba pick t)) = 2 ^ 53)) /\
  (In kataba (Basic.dictionary b) ->
     fst (Basic.checkWord_of kataba pick b) = Correct /\
     Basic.score (snd (Basic.checkWord_of kataba pick b))
       = Basic.score (Basic.updateScore 1 b) /\
     (- 2 ^ 53 <= Basic.score b < 2 ^ 53 ->
        Basic.score (snd (Basic.checkWord_of kataba pick b))
          = Basic.score b + 1) /\
     (Basic.score b = 2 ^ 53 ->
        Basic.score (snd (Basic.checkWord_of kataba pick b)) = 2 ^ 53)) /\
  (word <> [] -> ~ In word (Teacher.dictionary t) ->
     fst (Teacher.checkWord_of rawInput pick t) = Incorrect /\
     Teacher.score (snd (Teacher.checkWord_of rawInput pick t))
       = Teacher.score t) /\
  (isValidWordFormat word = true -> ~ In word (Basic.dictionary b) ->
     fst (Basic.checkWord_of rawInput pick b) = Incorrect /\
     Basic.score (snd (Basic.checkWord_of rawInput pick b))
       = Basic.score b) /\
  (word <> [] -> isValidWordFormat word = false ->
     fst (Basic.checkWord_of rawInput pick b) = InvalidFormat /\
     Basic.score (snd (Basic.checkWord_of rawInput pick b))
       = Basic.score b).
Proof.
  intros word.
  assert (Hin : forall d w, ~ In w d -> includes d w = false).
  { intros d w Hn. apply not_true_iff_false. by rewrite includes_In. }
  pose proof (Teacher_checkWord_cases kataba pick t) as (_ & _ & _ & _ & Htk & Hts).
  pose proof (Basic_checkWord_cases kataba pick b) as (_ & Hbk & Hbs).
  pose proof (Teacher_checkWord_cases rawInput pick t) as (_ & _ & _ & _ & Htr & Htq).
  pose proof (Basic_checkWord_cases rawInput pick b) as (_ & Hbr & Hbq).
  cbv zeta in *. fold word in Htr, Hbr.
  rewrite trim_kataba in Htk, Hbk. change (str_eqb kataba []) with false in Htk, Hbk.
  change (isValidWordFormat kataba) with true in Hbk. cbn [negb] in Hbk.
  split; [| split; [| split; [| split]]].
  - intros Hk%includes_In. rewrite Hk in Htk. rewrite Hts, Htk.
    split; [done |]. split; [done |]. split.
    + intros Hr. by apply number_add_one_below.
    + intros ->. apply number_add_at_limit.
  - intros Hk%includes_In. rewrite Hk in Hbk. rewrite Hbs, Hbk.
    split; [done |]. split; [done |]. split.
    + intros Hr. by apply number_add_one_below.
    + intros ->. apply number_add_at_limit.
  - intros Hne%str_eqb_nil Hnot%Hin. rewrite Hne, Hnot in Htr.
    by rewrite Htq, Htr.
  - intros Hv Hnot%Hin.
    rewrite (proj2 (str_eqb_nil _) (valid_format_nonempty _ Hv)), Hv, Hnot in Hbr.
    by rewrite Hbq, Hbr.
  - intros Hne%str_eqb_nil Hv. rewrite Hne, Hv in Hbr. by rewrite Hbq, Hbr.
Qed.

(** The outcomes on "كتب", "xyz" and "ابج" against a dictionary with "كتب",
    and on "كتب" at the score 2^53. *)
Lemma checkWord_outcomes_witness :
  (fst (Teacher.checkWord_of kataba 0 teacher_with_kataba) = Correct /\
   Teacher.score (snd (Teacher.checkWord_of kataba 0 teacher_with_kataba))
     = Teacher.score teacher_with_kataba + 1) /\
  Teacher.score (snd (Teacher.checkWord_of kataba 0 teacher_at_limit)) = 2 ^ 53 /\
  (fst (Basic.checkWord_of kataba 0 basic_loaded) = Correct /\
   Basic.score (snd (Basic.checkWord_of kataba 0 basic_loaded))
     = Basic.score basic_loaded + 1) /\
  (fst (Teacher.checkWord_of xyz 0 teacher_with_kataba) = Incorrect /\
   Teacher.score (snd (Teacher.checkWord_of xyz 0 teacher_with_kataba))
     = Teacher.score teacher_with_kataba) /\
  (fst (Basic.checkWord_of [0x0627; 0x0628; 0x062C] 0 basic_loaded) = Incorrect /\
   Basic.score (snd (Basic.checkWord_of [0x0627; 0x0628; 0x062C] 0 basic_loaded))
     = Basic.score basic_loaded) /\
  (fst (Basic.checkWord_of xyz 0 basic_loaded) = InvalidFormat /\
   Basic.score (snd (Basic.checkWord_of xyz 0 basic_loaded))
     = Basic.score basic_loaded).
Proof.
  destruct (checkWord_outcomes xyz 0 teacher_with_kataba basic_loaded)
    as (H1 & H2 & H3 & _ & H5).
  destruct (checkWord_outcomes [0x0627; 0x0628; 0x062C] 0
              teacher_with_kataba basic_loaded) as (_ & _ & _ & H4 & _).
  destruct (checkWord_outcomes xyz 0 teacher_at_limit basic_loaded)
    as (H6 & _).
  destruct (H1 ltac:(left; reflexivity)) as (H1a & _ & H1b & _).
  destruct (H2 ltac:(left; reflexivity)) as (H2a & _ & H2b & _).
  destruct (H6 ltac:(left; reflexivity)) as (_ & _ & _ & H6b).
  split; [split; [exact H1a | apply H1b; simpl; lia] |].
  split; [apply H6b; reflexivity |].
  split; [split; [exact H2a | apply H2b; simpl; lia] |].
  split; [apply H3; [discriminate | intros [E | []]; discriminate E] |].
  split; [apply H4; [reflexivity |] | apply H5; [discriminate | reflexivity]].
  vm_compute. intuition discriminate.
Defined.

Lemma Basic_reachable_dictionary s :
  Basic.reachable s -> Basic.dictionary s = Basic.predefinedDictionary.
Proof.
  induction 1 as [? ? ?|e s _ IH]; [reflexivity |].
  destruct e as [value|pick]; [exact IH |].
  unfold Basic.handle.
  destruct (Basic_checkWord_cases (Basic.wordInput_value s) pick s) as [Hd _].
  unfold Basic.checkWord_of in Hd. destruct s. exact (eq_trans Hd IH).
Qed.

(** C9.  The built-in dictionary has entries that fail
    [isValidWordFormat], namely "كتاب", "مدرسة" and "طالب", each longer
    than three characters.  In the variant that checks the format,
    [checkWord] on any of them is InvalidFormat and leaves the score
    alone, whatever the state, so it is never Correct, although the
    dictionary of every state of a session is the built-in list and has
    them. *)
Theorem long_default_entries_never_correct (pick : nat) (s : Basic.State) :
  List.filter (fun w => negb (isValidWordFormat w)) Basic.predefinedDictionary
    = [kitab; madrasa; talib] /\
  Forall (fun w =>
            (3 < length w)%nat /\
            fst (Basic.checkWord_of w pick s) = InvalidFormat /\
            Basic.score (snd (Basic.checkWord_of w pick s)) = Basic.score s)
         [kitab; madrasa; talib] /\
  (Basic.reachable s ->
     Forall (fun w => In w (Basic.dictionary s)) [kitab; madrasa; talib]).
Proof.
  split; [reflexivity |]. split.
  - repeat constructor.
  - intros ->%Basic_reachable_dictionary.
    repeat constructor; apply includes_In; reflexivity.
Qed.

(** After [initGame] the three long entries are in the dictionary. *)
Lemma long_default_entries_never_correct_witness :
  Forall (fun w => In w (Basic.dictionary basic_loaded)) [kitab; madrasa; talib].
Proof.
  apply (long_default_entries_never_correct 0 basic_loaded).
  apply Basic.reach_loaded.
Defined.


(** ** A session that reaches the score 2^53 *)

Lemma teacher_first_check :
  Teacher.handle (Teacher.ClickCheck 0)
    (Teacher.handle (Teacher.EditWord kataba)
       (Teacher.initGame
          (Teacher.initial blank_page
             {[ "arabicDictionary" := Teacher.JsonArray [kataba] ]})))
  = teacher_after_checks 1.
Proof.
  unfold Teacher.initGame. cbn [Teacher.localStorage Teacher.initial].
  rewrite lookup_singleton_eq. reflexivity.
Qed.

Lemma teacher_next_check n :
  Teacher.handle (Teacher.ClickCheck 0)
    (Teacher.handle (Teacher.EditWord kataba) (teacher_after_checks n))
  = teacher_after_checks (number_add n 1).
Proof. reflexivity. Qed.

Lemma teacher_after_checks_reachable n :
  1 <= n <= 2 ^ 53 -> Teacher.reachable (teacher_after_checks n).
Proof.
  intros Hn. replace n with (1 + (n - 1)) by lia.
  assert (Hm : 0 <= n - 1) by lia.
  assert (Hb : n - 1 < 2 ^ 53) by lia.
  revert Hb. generalize dependent (n - 1). clear n Hn.
  intros m Hm. pattern m. apply natlike_ind; [| | exact Hm].
  - intros _. change (1 + 0) with 1. rewrite <- teacher_first_check.
    do 2 apply Teacher.reach_event. apply Teacher.reach_loaded.
  - intros x Hx IH Hb.
    replace (1 + Z.succ x) with (number_add (1 + x) 1)
      by (rewrite number_add_one_below; lia).
    rewrite <- teacher_next_check.
    do 2 apply Teacher.reach_event. apply IH. lia.
Qed.

Lemma teacher_at_limit_reachable : Teacher.reachable teacher_at_limit.
Proof. apply teacher_after_checks_reachable. lia. Qed.

(** C1, as first stated, fails twice.  In the variant that checks the
    format, "xyz" is neither blank nor in the dictionary, which holds
    "كتب", and the outcome is InvalidFormat, not Incorrect.  And in the
    state a session has after 2^53 Correct checks, with "كتب" in the
    dictionary, a check of "كتب" is Correct but the score is 2^53 as
    before, not one more. *)
Lemma checkWord_claim_fails :
  (In kataba (Basic.dictionary basic_loaded) /\
   xyz <> [] /\
   ~ In xyz (Basic.dictionary basic_loaded) /\
   fst (Basic.checkWord_of xyz 0 basic_loaded) = InvalidFormat /\
   fst (Basic.checkWord_of xyz 0 basic_loaded) <> Incorrect) /\
  (Teacher.reachable teacher_at_limit /\
   In kataba (Teacher.dictionary teacher_at_limit) /\
   fst (Teacher.checkWord_of kataba 0 teacher_at_limit) = Correct /\
   Teacher.score (snd (Teacher.checkWord_of kataba 0 teacher_at_limit))
     = Teacher.score teacher_at_limit /\
   Teacher.score (snd (Teacher.checkWord_of kataba 0 teacher_at_limit))
     <> Teacher.score teacher_at_limit + 1).
Proof.
  split.
  - split; [by left |]. split; [discriminate |].
    split; [vm_compute; intuition discriminate |].
    split; [reflexivity | discriminate].
  - split; [apply teacher_at_limit_reachable |].
    split; [by left |]. repeat split. discriminate.
Qed.

(** C10, as amended.  Two runs of [checkWord] on the same input against
    the same dictionary, whatever else differs between the two states and
    whatever random indices are drawn, have the same outcome kind and
    update the score the same way: both leave it, or both run
    [score += 1] (on Correct).  The change of the score is then the same
    in both runs as long as both scores are below 2^53.  Two runs from the
    same state end with the same score; when the outcome is not Correct
    their final states are equal, and when it is Correct they differ in
    the text of the result area only, and there only in the encouragement
    phrase in front of the word.  This holds in both variants. *)
Theorem checkWord_ignores_random_pick
    (rawInput : jsstring) (p1 p2 : nat)
    (t1 t2 : Teacher.State) (b1 b2 : Basic.State) :
  Teacher.dictionary t1 = Teacher.dictionary t2 ->
  Basic.dictionary b1 = Basic.dictionary b2 ->
  let rt1 := Teacher.checkWord_of rawInput p1 t1 in
  let rt2 := Teacher.checkWord_of rawInput p2 t2 in
  let rb1 := Basic.checkWord_of rawInput p1 b1 in
  let rb2 := Basic.checkWord_of rawInput p2 b2 in
  (fst rt1 = fst rt2 /\
   Teacher.score (snd rt1) =
     (if Outcome_eq_dec (fst rt1) Correct
      then Teacher.score (Teacher.updateScore 1 t1) else Teacher.score t1) /\
   Teacher.score (snd rt2) =
     (if Outcome_eq_dec (fst rt1) Correct
      then Teacher.score (Teacher.updateScore 1 t2) else Teacher.score t2) /\
   (- 2 ^ 53 <= Teacher.score t1 < 2 ^ 53 ->
    - 2 ^ 53 <= Teacher.score t2 < 2 ^ 53 ->
    Teacher.score (snd rt1) - Teacher.score t1
      = Teacher.score (snd rt2) - Teacher.score t2) /\
   Teacher.dictionary (snd rt1) = Teacher.dictionary (snd rt2) /\
   (t1 = t2 ->
      Teacher.score (snd rt1) = Teacher.score (snd rt2) /\
      (fst rt1 <> Correct -> snd rt1 = snd rt2) /\
      (fst rt1 = Correct ->
         snd rt2 =
           Teacher.set_resultArea
             {| shown := TextContent
                           (randomMessage p2 ++
                            tpl_correct_1 ++ trim rawInput ++ tpl_correct_2);
                className :=
                  className (Teacher.resultArea (Teacher.page (snd rt1))) |}
             (snd rt1)))) /\
  (fst rb1 = fst rb2 /\
   Basic.score (snd rb1) =
     (if Outcome_eq_dec (fst rb1) Correct
      then Basic.score (Basic.updateScore 1 b1) else Basic.score b1) /\
   Basic.score (snd rb2) =
     (if Outcome_eq_dec (fst rb1) Correct
      then Basic.score (Basic.updateScore 1 b2) else Basic.score b2) /\
   (- 2 ^ 53 <= Basic.score b1 < 2 ^ 53 ->
    - 2 ^ 53 <= Basic.score b2 < 2 ^ 53 ->
    Basic.score (snd rb1) - Basic.score b1
      = Basic.score (snd rb2) - Basic.score b2) /\
   Basic.dictionary (snd rb1) = Basic.dictionary (snd rb2) /\
   (b1 = b2 ->
      Basic.score (snd rb1) = Basic.score (snd rb2) /\
      (fst rb1 <> Correct -> snd rb1 = snd rb2) /\
      (fst rb1 = Correct ->
         snd rb2 =
           Basic.set_resultArea
             {| shown := TextContent
                           (randomMessage p2 ++
                            tpl_correct_1 ++ trim rawInput ++ tpl_correct_2);
                className := className (Basic.resultArea (snd rb1)) |}
             (snd rb1)))).
Proof.
  intros Hdt Hdb. cbv zeta. split.
  - pose proof (Teacher_checkWord_cases rawInput p1 t1) as (Hd1 & _ & _ & _ & Hk1 & Hs1).
    pose proof (Teacher_checkWord_cases rawInput p2 t2) as (Hd2 & _ & _ & _ & Hk2 & Hs2).
    cbv zeta in *.
    assert (Hk : fst (Teacher.checkWord_of rawInput p1 t1)
                 = fst (Teacher.checkWord_of rawInput p2 t2))
      by (by rewrite Hk1, Hk2, Hdt).
    rewrite <- Hk in Hs2.
    split; [exact Hk |]. split; [exact Hs1 |]. split; [exact Hs2 |].
    split; [| split; [by rewrite Hd1, Hd2 |]].
    + intros Hr1 Hr2. rewrite Hs1, Hs2.
      destruct (Outcome_eq_dec _ Correct); [| lia].
      rewrite !number_add_one_below by done. lia.
    + intros <-. clear.
      unfold Teacher.checkWord_of, Teacher.checkWord.
      cbn [Teacher.wordInput_value Teacher.set_wordInput_value Teacher.set_page
           Teacher.page].
      destruct (str_eqb _ []); [by repeat split |].
      destruct (Teacher.isWordInDictionary _ _); by repeat split.
  - pose proof (Basic_checkWord_cases rawInput p1 b1) as (Hd1 & Hk1 & Hs1).
    pose proof (Basic_checkWord_cases rawInput p2 b2) as (Hd2 & Hk2 & Hs2).
    cbv zeta in *.
    assert (Hk : fst (Basic.checkWord_of rawInput p1 b1)
                 = fst (Basic.checkWord_of rawInput p2 b2))
      by (by rewrite Hk1, Hk2, Hdb).
    rewrite <- Hk in Hs2.
    split; [exact Hk |]. split; [exact Hs1 |]. split; [exact Hs2 |].
    split; [| split; [by rewrite Hd1, Hd2 |]].
    + intros Hr1 Hr2. rewrite Hs1, Hs2.
      destruct (Outcome_eq_dec _ Correct); [| lia].
      rewrite !number_add_one_below by done. lia.
    + intros <-. clear.
      unfold Basic.checkWord_of, Basic.checkWord.
      cbn [Basic.wordInput_value Basic.set_wordInput_value].
      destruct (str_eqb _ []); [by repeat split |].
      destruct (negb _); [by repeat split |].
      destruct (Basic.isWordInDictionary _ _); by repeat split.
Qed.

(** "كتب" against a dictionary with "كتب", from two states with different
    scores and with the picks 0 and 4; "xyz" twice from one state. *)
Lemma checkWord_ignores_random_pick_witness :
  (fst (Teacher.checkWord_of kataba 0 teacher_with_kataba)
     = fst (Teacher.checkWord_of kataba 4 (teacher_after_checks 1)) /\
   Teacher.score (snd (Teacher.checkWord_of kataba 0 teacher_with_kataba))
     - Teacher.score teacher_with_kataba
   = Teacher.score (snd (Teacher.checkWord_of kataba 4 (teacher_after_checks 1)))
     - Teacher.score (teacher_after_checks 1)) /\
  snd (Teacher.checkWord_of xyz 0 teacher_with_kataba)
    = snd (Teacher.checkWord_of xyz 4 teacher_with_kataba) /\
  shown (Teacher.resultArea (Teacher.page
           (snd (Teacher.checkWord_of kataba 4 teacher_with_kataba))))
    = TextContent (randomMessage 4 ++ tpl_correct_1 ++ kataba ++ tpl_correct_2) /\
  snd (Basic.checkWord_of xyz 0 basic_loaded)
    = snd (Basic.checkWord_of xyz 4 basic_loaded) /\
  shown (Basic.resultArea (snd (Basic.checkWord_of kataba 4 basic_loaded)))
    = TextContent (randomMessage 4 ++ tpl_correct_1 ++ kataba ++ tpl_correct_2).
Proof.
  destruct (checkWord_ignores_random_pick kataba 0 4
              teacher_with_kataba (teacher_after_checks 1)
              basic_loaded basic_loaded eq_refl eq_refl)
    as ((Hk & _ & _ & Hdiff & _) & _).
  destruct (checkWord_ignores_random_pick xyz 0 4
              teacher_with_kataba teacher_with_kataba
              basic_loaded basic_loaded eq_refl eq_refl)
    as ((_ & _ & _ & _ & _ & Ht) & (_ & _ & _ & _ & _ & Hb)).
  destruct (checkWord_ignores_random_pick kataba 0 4
              teacher_with_kataba teacher_with_kataba
              basic_loaded basic_loaded eq_refl eq_refl)
    as ((_ & _ & _ & _ & _ & Htk) & (_ & _ & _ & _ & _ & Hbk)).
  destruct (Ht eq_refl) as (_ & Ht' & _).
  destruct (Hb eq_refl) as (_ & Hb' & _).
  destruct (Htk eq_refl) as (_ & _ & Htk').
  destruct (Hbk eq_refl) as (_ & _ & Hbk').
  split; [split; [exact Hk | apply Hdiff; simpl; lia] |].
  split; [apply Ht'; discriminate |].
  split; [rewrite Htk'; reflexivity |].
  split; [apply Hb'; discriminate |].
  rewrite Hbk'; reflexivity.
Defined.

(** C10, as first stated, fails: "كتب" is checked against the same
    dictionary after one Correct check and after 2^53 of them, two states
    of a session.  Both checks are Correct; the first raises the score by
    1, the second leaves it. *)
Lemma same_check_other_score_change :
  Teacher.reachable (teacher_after_checks 1) /\
  Teacher.reachable teacher_at_limit /\
  Teacher.dictionary (teacher_after_checks 1) = Teacher.dictionary teacher_at_limit /\
  fst (Teacher.checkWord_of kataba 0 (teacher_after_checks 1)) = Correct /\
  fst (Teacher.checkWord_of kataba 0 teacher_at_limit) = Correct /\
  Teacher.score (snd (Teacher.checkWord_of kataba 0 (teacher_after_checks 1)))
    - Teacher.score (teacher_after_checks 1) = 1 /\
  Teacher.score (snd (Teacher.checkWord_of kataba 0 teacher_at_limit))
    - Teacher.score teacher_at_limit = 0.
Proof.
  split; [apply teacher_after_checks_reachable; lia |].
  split; [apply teacher_at_limit_reachable |].
  repeat split.
Qed.

(** ** The teacher panel *)

(** What [addNewWord] does, branch by branch. *)
Lemma Teacher_addNewWord_cases rawInput persist_ok s :
  let newWord := trim rawInput in
  let r := Teacher.addNewWord_of rawInput persist_ok s in
  (fst r =
     if str_eqb newWord [] then Teacher.AddEmptyInput
     else if negb (isValidWordFormat newWord) then Teacher.AddInvalidFormat
     else if includes (Teacher.dictionary s) newWord then Teacher.AlreadyExists
     else Teacher.Added) /\
  Teacher.dictionary (snd r) =
    match fst r with
    | Teacher.Added => Teacher.dictionary s ++ [newWord]
    | _ => Teacher.dictionary s
    end /\
  Teacher.localStorage (snd r) =
    match fst r, persist_ok with
    | Teacher.Added, true =>
        <["arabicDictionary" := Teacher.JSON_stringify (Teacher.dictionary s ++ [newWord])]>
          (Teacher.localStorage s)
    | _, _ => Teacher.localStorage s
    end /\
  Teacher.score (snd r) = Teacher.score s.
Proof.
  unfold Teacher.addNewWord_of, Teacher.addNewWord, Teacher.isWordInDictionary.
  cbn [Teacher.newWordInput_value Teacher.set_newWordInput_value Teacher.set_page
       Teacher.page Teacher.dictionary].
  destruct (str_eqb _ []); [done |].
  destruct (isValidWordFormat _); [| done].
  destruct (includes _ _); [done |].
  by destruct persist_ok.
Qed.

(** C4.  For a word of the valid format that the dictionary does not
    have, [addNewWord] succeeds, appends the word, and the membership test
    then answers true; adding the same word again is refused with
    AlreadyExists and leaves the dictionary as it was, with no second
    copy.  Whether the save to [localStorage] worked plays no part. *)
Theorem add_word_then_already_exists
    (w : jsstring) (ok1 ok2 : bool) (s : Teacher.State) :
  isValidWordFormat w = true ->
  ~ In w (Teacher.dictionary s) ->
  let r1 := Teacher.addNewWord_of w ok1 s in
  let r2 := Teacher.addNewWord_of w ok2 (snd r1) in
  fst r1 = Teacher.Added /\
  Teacher.dictionary (snd r1) = Teacher.dictionary s ++ [w] /\
  Teacher.isWordInDictionary w (snd r1) = true /\
  fst r2 = Teacher.AlreadyExists /\
  Teacher.dictionary (snd r2) = Teacher.dictionary (snd r1) /\
  Teacher.dictionary (snd r2) = Teacher.dictionary s ++ [w].
Proof.
  intros Hv Hnot r1 r2.
  pose proof (Teacher_addNewWord_cases w ok1 s) as (Hk1 & Hd1 & _).
  pose proof (Teacher_addNewWord_cases w ok2 (snd r1)) as (Hk2 & Hd2 & _).
  cbv zeta in *. fold r1 in Hk1, Hd1, Hk2, Hd2. fold r2 in Hk2, Hd2.
  rewrite (valid_format_trim w Hv) in *.
  rewrite (proj2 (str_eqb_nil _) (valid_format_nonempty _ Hv)), Hv in Hk1, Hk2.
  cbn [negb] in Hk1, Hk2.
  assert (Hinc : includes (Teacher.dictionary s) w = false).
  { apply not_true_iff_false. by rewrite includes_In. }
  rewrite Hinc in Hk1. rewrite Hk1 in Hd1.
  rewrite Hd1, includes_app in Hk2. rewrite Hk2 in Hd2.
  repeat split; try done.
  - unfold Teacher.isWordInDictionary. rewrite Hd1. apply includes_app.
  - by rewrite Hd2, Hd1.
Qed.

(** Adding "ابج" twice to a dictionary that holds "كتب". *)
Lemma add_word_then_already_exists_witness :
  fst (Teacher.addNewWord_of [0x0627; 0x0628; 0x062C] true teacher_with_kataba)
    = Teacher.Added /\
  fst (Teacher.addNewWord_of [0x0627; 0x0628; 0x062C] true
         (snd (Teacher.addNewWord_of [0x0627; 0x0628; 0x062C] true
                 teacher_with_kataba)))
    = Teacher.AlreadyExists.
Proof.
  assert (Hnot : ~ In [0x0627; 0x0628; 0x062C]
                      (Teacher.dictionary teacher_with_kataba)).
  { intros [E | []]. discriminate E. }
  destruct (add_word_then_already_exists [0x0627; 0x0628; 0x062C] true true
              teacher_with_kataba eq_refl Hnot) as (H1 & _ & _ & H2 & _).
  exact (conj H1 H2).
Defined.



(** C6.  When the write to [localStorage] fails, [addNewWord] and the
    import still change the dictionary in memory exactly as they do when
    the write succeeds: the outcome of the add and the resulting
    dictionary are the same, an added word is in the dictionary, and the
    imported sequence is the dictionary, while the storage keeps its old
    content. *)
Theorem failed_save_keeps_memory_change
    (rawInput content : jsstring) (s : Teacher.State) :
  let a0 := Teacher.addNewWord_of rawInput false s in
  let a1 := Teacher.addNewWord_of rawInput true s in
  let i0 := Teacher.handleFileImport false (Teacher.Loaded content) s in
  let i1 := Teacher.handleFileImport true (Teacher.Loaded content) s in
  fst a0 = fst a1 /\
  Teacher.dictionary (snd a0) = Teacher.dictionary (snd a1) /\
  Teacher.localStorage (snd a0) = Teacher.localStorage s /\
  (fst a0 = Teacher.Added ->
     Teacher.dictionary (snd a0) = Teacher.dictionary s ++ [trim rawInput] /\
     Teacher.isWordInDictionary (trim rawInput) (snd a0) = true) /\
  Teacher.dictionary (snd i0) = importedWords content /\
  Teacher.dictionary (snd i0) = Teacher.dictionary (snd i1) /\
  Teacher.localStorage (snd i0) = Teacher.localStorage s.
Proof.
  intros a0 a1 i0 i1.
  pose proof (Teacher_addNewWord_cases rawInput false s) as (Hk0 & Hd0 & Hl0 & _).
  pose proof (Teacher_addNewWord_cases rawInput true s) as (Hk1 & Hd1 & _).
  cbv zeta in *. fold a0 in Hk0, Hd0, Hl0. fold a1 in Hk1, Hd1.
  assert (Hk : fst a0 = fst a1) by congruence.
  split; [exact Hk |].
  split; [by rewrite Hd0, Hd1, Hk |].
  split; [rewrite Hl0; by destruct (fst a0) |].
  split; [| by split].
  intros Ha. rewrite Ha in Hd0. split; [exact Hd0 |].
  unfold Teacher.isWordInDictionary. rewrite Hd0. apply includes_app.
Qed.

(** Adding "ابج" while the storage refuses the write. *)
Lemma failed_save_keeps_memory_change_witness :
  Teacher.dictionary
    (snd (Teacher.addNewWord_of abj false teacher_with_kataba))
    = [kataba; abj] /\
  Teacher.isWordInDictionary abj
    (snd (Teacher.addNewWord_of abj false teacher_with_kataba)) = true.
Proof.
  destruct (failed_save_keeps_memory_change abj [] teacher_with_kataba)
    as (_ & _ & _ & H & _).
  apply H. reflexivity.
Defined.

(** ** Start-up and whole sessions *)

Lemma Teacher_handleFileImport_frame persist_ok file s :
  let r := Teacher.handleFileImport persist_ok file s in
  Teacher.score (snd r) = Teacher.score s /\
  Teacher.awaiting_fetch (snd r) = Teacher.awaiting_fetch s /\
  (forall url, In (Teacher.Fetch url) (Teacher.requests (snd r)) ->
               In (Teacher.Fetch url) (Teacher.requests s)).
Proof.
  destruct file as [| |content]; simpl; try done.
  destruct persist_ok; simpl; [done |].
  repeat split. by intros url [E | H].
Qed.

Lemma Teacher_addNewWord_frame persist_ok s :
  let r := Teacher.addNewWord persist_ok s in
  Teacher.score (snd r) = Teacher.score s /\
  Teacher.awaiting_fetch (snd r) = Teacher.awaiting_fetch s /\
  (forall url, In (Teacher.Fetch url) (Teacher.requests (snd r)) ->
               In (Teacher.Fetch url) (Teacher.requests s)).
Proof.
  unfold Teacher.addNewWord.
  destruct (str_eqb _ []); [done |].
  destruct (negb _); [done |].
  destruct (Teacher.isWordInDictionary _ _); [done |].
  destruct persist_ok; simpl; [done |].
  repeat split. by intros url [E | H].
Qed.

Lemma Teacher_checkWord_frame pick s :
  let r := Teacher.checkWord pick s in
  Teacher.score (snd r) =
    (if Outcome_eq_dec (fst r) Correct then number_add (Teacher.score s) 1
     else Teacher.score s) /\
  Teacher.awaiting_fetch (snd r) = Teacher.awaiting_fetch s /\
  Teacher.requests (snd r) = Teacher.requests s.
Proof.
  unfold Teacher.checkWord.
  destruct (str_eqb _ []); [done |].
  by destruct (Teacher.isWordInDictionary _ _).
Qed.

Lemma Teacher_handle_score e s :
  Teacher.score (Teacher.handle e s) =
    if Teacher_gain e s =? 1 then number_add (Teacher.score s) 1
    else Teacher.score s.
Proof.
  destruct e as [v|v|pick| |ok|ok| |ok file|text]; simpl; try done.
  - rewrite (proj1 (Teacher_checkWord_frame pick s)).
    by destruct (Outcome_eq_dec _ _).
  - apply Teacher_addNewWord_frame.
  - by destruct ok.
  - apply Teacher_handleFileImport_frame.
  - destruct (Teacher.awaiting_fetch s); [| done]. by destruct text.
Qed.

Lemma Basic_handle_score e s :
  Basic.score (Basic.handle e s) =
    if Basic_gain e s =? 1 then number_add (Basic.score s) 1
    else Basic.score s.
Proof.
  destruct e as [v|pick]; simpl; [done |].
  unfold Basic.checkWord.
  destruct (str_eqb _ []); [done |].
  destruct (negb _); [done |].
  by destruct (Basic.isWordInDictionary _ _).
Qed.

Lemma Teacher_gain_range e s : 0 <= Teacher_gain e s <= 1.
Proof.
  destruct e; simpl; try lia. destruct (Outcome_eq_dec _ _); lia.
Qed.

Lemma Basic_gain_range e s : 0 <= Basic_gain e s <= 1.
Proof.
  destruct e; simpl; try lia. destruct (Outcome_eq_dec _ _); lia.
Qed.

Lemma Teacher_handle_score_step e s :
  - 2 ^ 53 <= Teacher.score s <= 2 ^ 53 ->
  Teacher.score s <= Teacher.score (Teacher.handle e s)
    <= Teacher.score s + Teacher_gain e s /\
  - 2 ^ 53 <= Teacher.score (Teacher.handle e s) <= 2 ^ 53.
Proof.
  intros Hs. rewrite Teacher_handle_score.
  pose proof (Teacher_gain_range e s). pose proof (number_add_one _ Hs).
  destruct (Teacher_gain e s =? 1) eqn:Hg; lia.
Qed.

Lemma Basic_handle_score_step e s :
  - 2 ^ 53 <= Basic.score s <= 2 ^ 53 ->
  Basic.score s <= Basic.score (Basic.handle e s)
    <= Basic.score s + Basic_gain e s /\
  - 2 ^ 53 <= Basic.score (Basic.handle e s) <= 2 ^ 53.
Proof.
  intros Hs. rewrite Basic_handle_score.
  pose proof (Basic_gain_range e s). pose proof (number_add_one _ Hs).
  destruct (Basic_gain e s =? 1) eqn:Hg; lia.
Qed.

Lemma Teacher_initGame_score s :
  Teacher.score (Teacher.initGame s) = Teacher.score s.
Proof.
  unfold Teacher.initGame.
  destruct (Teacher.localStorage s !! "arabicDictionary") as [saved|]; [| done].
  destruct (Teacher.truthy saved); [| done].
  by destruct (Teacher.JSON_parse saved).
Qed.

Lemma Teacher_reachable_score s :
  Teacher.reachable s -> 0 <= Teacher.score s <= 2 ^ 53.
Proof.
  induction 1 as [page0 storage|e s _ IH].
  - rewrite Teacher_initGame_score. simpl. lia.
  - pose proof (Teacher_handle_score_step e s). lia.
Qed.

Lemma Basic_reachable_score s :
  Basic.reachable s -> 0 <= Basic.score s <= 2 ^ 53.
Proof.
  induction 1 as [? ? ?|e s _ IH].
  - simpl. lia.
  - pose proof (Basic_handle_score_step e s). lia.
Qed.

(** C8, as amended.  The score is 0 when the session starts, and in every
    state a session can reach it is neither negative nor above 2^53.  An
    event leaves the score as it is, except a check whose outcome is
    Correct, which runs [score += 1]: no handler passes another amount,
    and none takes anything off.  [updateScore] itself adds whatever it is
    given, negative amounts included, and the sum is exact as long as it
    stays within 2^53 in magnitude; so a Correct check adds exactly 1 to a
    score below 2^53, while a score of 2^53 stays where it is.  This holds
    in both variants. *)
Theorem score_starts_at_zero_and_only_grows
    (t : Teacher.State) (b : Basic.State)
    (et : Teacher.event) (eb : Basic.event) (points : Z) :
  (forall page0 storage,
     Teacher.score (Teacher.initial page0 storage) = 0 /\
     Teacher.score (Teacher.initGame (Teacher.initial page0 storage)) = 0) /\
  (forall wordInput0 resultArea0 scoreDisplay0,
     Basic.score (Basic.initial wordInput0 resultArea0 scoreDisplay0) = 0 /\
     Basic.score
       (Basic.initGame (Basic.initial wordInput0 resultArea0 scoreDisplay0)) = 0) /\
  (Teacher.reachable t -> 0 <= Teacher.score t <= 2 ^ 53) /\
  (Basic.reachable b -> 0 <= Basic.score b <= 2 ^ 53) /\
  Teacher.score (Teacher.handle et t) =
    match et with
    | Teacher.ClickCheck pick =>
        if Outcome_eq_dec (fst (Teacher.checkWord pick t)) Correct
        then Teacher.score (Teacher.updateScore 1 t) else Teacher.score t
    | _ => Teacher.score t
    end /\
  Basic.score (Basic.handle eb b) =
    match eb with
    | Basic.ClickCheck pick =>
        if Outcome_eq_dec (fst (Basic.checkWord pick b)) Correct
        then Basic.score (Basic.updateScore 1 b) else Basic.score b
    | Basic.EditWord _ => Basic.score b
    end /\
  (- 2 ^ 53 <= Teacher.score t + points <= 2 ^ 53 ->
     Teacher.score (Teacher.updateScore points t) = Teacher.score t + points) /\
  (- 2 ^ 53 <= Basic.score b + points <= 2 ^ 53 ->
     Basic.score (Basic.updateScore points b) = Basic.score b + points) /\
  (Teacher.score t = 2 ^ 53 ->
     Teacher.score (Teacher.updateScore 1 t) = 2 ^ 53) /\
  (Basic.score b = 2 ^ 53 ->
     Basic.score (Basic.updateScore 1 b) = 2 ^ 53).
Proof.
  split; [intros; split; [done | by rewrite Teacher_initGame_score] |].
  split; [done |].
  split; [apply Teacher_reachable_score |].
  split; [apply Basic_reachable_score |].
  split.
  { rewrite Teacher_handle_score. destruct et; try done.
    simpl. by destruct (Outcome_eq_dec _ _). }
  split.
  { rewrite Basic_handle_score. destruct eb; try done.
    simpl. by destruct (Outcome_eq_dec _ _). }
  split; [intros Hr; by apply number_add_exact |].
  split; [intros Hr; by apply number_add_exact |].
  split; intros Hs; simpl; rewrite Hs; apply number_add_at_limit.
Qed.

(** The score after one check in each variant, and taking 5 off a score
    of 0. *)
Lemma score_starts_at_zero_and_only_grows_witness :
  0 <= Teacher.score
         (Teacher.handle (Teacher.ClickCheck 0)
            (Teacher.handle (Teacher.EditWord xyz)
               (Teacher.initGame (Teacher.initial blank_page ∅)))) <= 2 ^ 53 /\
  0 <= Basic.score
         (Basic.handle (Basic.ClickCheck 0)
            (Basic.handle (Basic.EditWord kataba) basic_loaded)) <= 2 ^ 53 /\
  Teacher.score (Teacher.updateScore (-5) (Teacher.initial blank_page ∅)) = -5 /\
  Basic.score (Basic.updateScore (-5) basic_loaded) = -5 /\
  Teacher.score (Teacher.updateScore 1 teacher_at_limit) = 2 ^ 53.
Proof.
  destruct (score_starts_at_zero_and_only_grows
              (Teacher.handle (Teacher.ClickCheck 0)
                 (Teacher.handle (Teacher.EditWord xyz)
                    (Teacher.initGame (Teacher.initial blank_page ∅))))
              (Basic.handle (Basic.ClickCheck 0)
                 (Basic.handle (Basic.EditWord kataba) basic_loaded))
              Teacher.ClickToggle (Basic.ClickCheck 0) 0)
    as (_ & _ & Ht & Hb & _).
  destruct (score_starts_at_zero_and_only_grows
              (Teacher.initial blank_page ∅) basic_loaded
              Teacher.ClickToggle (Basic.ClickCheck 0) (-5))
    as (_ & _ & _ & _ & _ & _ & Hut & Hub & _).
  destruct (score_starts_at_zero_and_only_grows
              teacher_at_limit basic_loaded
              Teacher.ClickToggle (Basic.ClickCheck 0) 0)
    as (_ & _ & _ & _ & _ & _ & _ & _ & Hlim & _).
  split; [apply Ht; do 2 apply Teacher.reach_event; apply Teacher.reach_loaded |].
  split; [apply Hb; do 2 apply Basic.reach_event; apply Basic.reach_loaded |].
  split; [apply Hut; simpl; lia |].
  split; [apply Hub; simpl; lia |].
  apply Hlim. reflexivity.
Defined.

(** C8, as first stated, fails in the state a session has after 2^53
    Correct checks: one more Correct check of "كتب" runs [score += 1], and
    the score is 2^53 as before, not one more. *)
Lemma score_stays_at_limit :
  Teacher.reachable teacher_at_limit /\
  Teacher.score teacher_at_limit = 2 ^ 53 /\
  fst (Teacher.checkWord 0
         (Teacher.handle (Teacher.EditWord kataba) teacher_at_limit)) = Correct /\
  Teacher.score
    (Teacher.handle (Teacher.ClickCheck 0)
       (Teacher.handle (Teacher.EditWord kataba) teacher_at_limit))
    = Teacher.score teacher_at_limit /\
  Teacher.score
    (Teacher.handle (Teacher.ClickCheck 0)
       (Teacher.handle (Teacher.EditWord kataba) teacher_at_limit))
    <> Teacher.score teacher_at_limit + 1.
Proof.
  split; [apply teacher_at_limit_reachable |].
  repeat split. discriminate.
Qed.




(** ** More on trimming *)

Lemma trimStart_nil_iff s : trimStart s = [] <-> all_space s = true.
Proof.
  induction s as [|c s IH]; simpl; [done |].
  destruct (isWhiteSpace c); simpl; [exact IH |]. split; discriminate.
Qed.

Lemma trimStart_head s :
  trimStart s = [] \/
  exists c s', trimStart s = c :: s' /\ isWhiteSpace c = false.
Proof.
  induction s as [|c s IH]; simpl; [by left |].
  destruct (isWhiteSpace c) eqn:Hc; [exact IH |]. right. by exists c, s.
Qed.

Lemma trimStart_snoc l c :
  isWhiteSpace c = false -> trimStart (l ++ [c]) = trimStart l ++ [c].
Proof.
  intros Hc. induction l as [|x l IH]; simpl; [by rewrite Hc |].
  by destruct (isWhiteSpace x).
Qed.

Lemma all_space_rev s : all_space (rev s) = all_space s.
Proof.
  unfold all_space. induction s as [|c s IH]; simpl; [done |].
  rewrite forallb_app, IH. simpl. rewrite andb_true_r. apply andb_comm.
Qed.

Lemma trim_nil_iff s : trim s = [] <-> all_space s = true.
Proof.
  unfold trim, trimEnd. split.
  - intros H. apply (f_equal (@rev Z)) in H. rewrite rev_involutive in H.
    simpl in H. apply trimStart_nil_iff in H. rewrite all_space_rev in H.
    destruct (trimStart_head s) as [E | (c & s' & E & Hc)].
    + by apply trimStart_nil_iff.
    + rewrite E in H. simpl in H. by rewrite Hc in H.
  - intros H. apply trimStart_nil_iff in H. by rewrite H.
Qed.

Lemma trim_well_trimmed s : trim s = [] \/ well_trimmed (trim s) = true.
Proof.
  unfold trim, trimEnd.
  destruct (trimStart_head s) as [-> | (c & s' & -> & Hc)]; [by left |].
  right. simpl. rewrite trimStart_snoc by done.
  rewrite rev_app_distr. simpl.
  apply well_trimmed_spec.
  destruct (trimStart_head (rev s')) as [E | (c2 & t & E & Hc2)]; rewrite E; simpl.
  - by exists c, c.
  - exists c, c2. repeat split; try done.
    rewrite app_comm_cons. apply last_snoc.
Qed.

Lemma trim_idempotent s : trim (trim s) = trim s.
Proof.
  destruct (trim_well_trimmed s) as [-> | H]; [done |].
  by apply well_trimmed_trim.
Qed.

Lemma single_line_app s1 s2 :
  single_line (s1 ++ s2) = single_line s1 && single_line s2.
Proof. apply forallb_app. Qed.

Lemma single_line_rev s : single_line (rev s) = single_line s.
Proof.
  induction s as [|c s IH]; simpl; [done |].
  rewrite single_line_app, IH. simpl. rewrite andb_true_r. apply andb_comm.
Qed.

Lemma single_line_trimStart s :
  single_line s = true -> single_line (trimStart s) = true.
Proof.
  induction s as [|c s IH]; simpl; [done |].
  destruct (isWhiteSpace c); [| done].
  rewrite andb_true_iff. intros [_ H]. by apply IH.
Qed.

Lemma single_line_trim s : single_line s = true -> single_line (trim s) = true.
Proof.
  intros H. unfold trim, trimEnd.
  rewrite single_line_rev. apply single_line_trimStart.
  rewrite single_line_rev. by apply single_line_trimStart.
Qed.

Lemma split_LF_single_lines s :
  Forall (fun piece => single_line piece = true) (split_LF s).
Proof.
  induction s as [|c s IH]; simpl; [by repeat constructor |].
  destruct (c =? LF) eqn:Hc; [by constructor |].
  destruct (split_LF s) as [|piece pieces]; [by repeat constructor; simpl; rewrite Hc |].
  inversion IH as [|? ? Hp Hps]; subst.
  constructor; [| done]. simpl. by rewrite Hc.
Qed.

Lemma clean_spec w :
  clean w = true <-> well_trimmed w = true /\ single_line w = true.
Proof. unfold clean. apply andb_true_iff. Qed.

Lemma imported_words_clean content :
  Forall (fun w => clean w = true) (importedWords content).
Proof.
  unfold importedWords.
  induction (split_LF_single_lines (trim content)) as [|piece pieces Hp _ IH];
    simpl; [constructor |].
  destruct (trim piece) as [|c t] eqn:Ht; simpl; [exact IH |].
  constructor; [| exact IH].
  apply clean_spec. rewrite <- Ht. split.
  - destruct (trim_well_trimmed piece) as [E | H]; [congruence | done].
  - by apply single_line_trim.
Qed.

Lemma clean_lines_kept ws :
  Forall (fun w => well_trimmed w = true) ws ->
  List.filter (fun word => (0 <? length word)%nat)
    (map (fun word => trim word) ws) = ws.
Proof.
  induction 1 as [|x xs Hx _ IH]; [reflexivity |].
  simpl. rewrite (well_trimmed_trim x Hx).
  destruct x; [by apply well_trimmed_nonempty in Hx |].
  simpl. by f_equal.
Qed.

Lemma trim_join_LF words :
  Forall (fun w => well_trimmed w = true) words ->
  trim (join_LF words) = join_LF words.
Proof.
  intros Htrim. destruct words as [|w words]; [reflexivity |].
  assert (Hne : Forall (fun w => w <> []) (w :: words)).
  { eapply Forall_impl; [exact Htrim |]. apply well_trimmed_nonempty. }
  assert (Hw : well_trimmed w = true) by (by inversion Htrim).
  apply well_trimmed_spec in Hw as (c1 & _ & Hc1 & _ & Hws1 & _).
  destruct (last (w :: words)) as [wl|] eqn:Hlast; [| by apply last_None in Hlast].
  assert (Hl : well_trimmed wl = true).
  { apply (proj1 (Forall_forall _ _) Htrim).
    apply last_Some in Hlast as [l' ->]. set_solver. }
  apply well_trimmed_spec in Hl as (_ & c2 & _ & Hc2 & _ & Hws2).
  eapply trim_keep; eauto using head_join_LF, last_join_LF.
Qed.

Lemma importedWords_of_clean words :
  Forall (fun w => clean w = true) words ->
  importedWords (join_LF words) = words.
Proof.
  intros Hclean.
  assert (Htrim : Forall (fun w => well_trimmed w = true) words).
  { eapply Forall_impl; [exact Hclean |]. by intros w [? ?]%clean_spec. }
  assert (Hline : Forall (fun w => single_line w = true) words).
  { eapply Forall_impl; [exact Hclean |]. by intros w [? ?]%clean_spec. }
  unfold importedWords. rewrite trim_join_LF by done.
  destruct words as [|w words]; [reflexivity |].
  rewrite split_join_LF by done. by apply clean_lines_kept.
Qed.

(** ** What an import leaves in the dictionary *)

Lemma single_line_spec w : single_line w = true <-> ~ In LF w.
Proof.
  unfold single_line. rewrite forallb_forall. split.
  - intros H Hin. specialize (H LF Hin). by rewrite Z.eqb_refl in H.
  - intros H c Hin. apply negb_true_iff, Z.eqb_neq. by intros ->.
Qed.

Lemma clean_plain w :
  clean w = true -> w <> [] /\ trim w = w /\ ~ In LF w.
Proof.
  intros [Ht Hl]%clean_spec.
  split; [by apply well_trimmed_nonempty |].
  split; [by apply well_trimmed_trim | by apply single_line_spec].
Qed.

Lemma valid_format_clean w : isValidWordFormat w = true -> clean w = true.
Proof.
  intros Hv. apply clean_spec. split; [by apply valid_format_well_trimmed |].
  apply isValidWordFormat_true in Hv as [_ Hall].
  unfold single_line. apply forallb_forall. intros c Hin.
  rewrite Forall_forall in Hall. apply list_elem_of_In, Hall in Hin.
  unfold in_arabic_ranges, LF in *. lia.
Qed.

(** Every word that a file import puts into the dictionary is non-empty,
    has no white space at either end and no line feed inside, whatever
    the file holds; and the dictionary is these words and nothing of what
    it held before. *)
Theorem import_leaves_clean_entries
    (content : jsstring) (persist_ok : bool) (s : Teacher.State) :
  let s' := snd (Teacher.handleFileImport persist_ok (Teacher.Loaded content) s) in
  Teacher.dictionary s' = importedWords content /\
  Forall (fun w => w <> [] /\ trim w = w /\ ~ In LF w) (Teacher.dictionary s').
Proof.
  assert (Hd : Teacher.dictionary
                 (snd (Teacher.handleFileImport persist_ok
                         (Teacher.Loaded content) s))
               = importedWords content) by (by destruct persist_ok).
  cbv zeta. split; [exact Hd |]. rewrite Hd.
  eapply Forall_impl; [apply imported_words_clean |]. apply clean_plain.
Qed.

(** Exporting the dictionary that an import produced and importing the
    downloaded text again gives the same dictionary: the text form loses
    nothing of an imported dictionary. *)
Theorem export_after_import_reimports
    (content : jsstring) (ok1 ok2 : bool) (s : Teacher.State) :
  let s1 := snd (Teacher.handleFileImport ok1 (Teacher.Loaded content) s) in
  let s2 := Teacher.exportDictionary true s1 in
  head (Teacher.requests s2)
    = Some (Teacher.Download "words_updated.txt" (join_LF (Teacher.dictionary s1))) /\
  Teacher.dictionary s2 = Teacher.dictionary s1 /\
  Teacher.dictionary
    (snd (Teacher.handleFileImport ok2
            (Teacher.Loaded (join_LF (Teacher.dictionary s1))) s2))
    = Teacher.dictionary s1.
Proof.
  cbv zeta. split; [reflexivity |]. split; [reflexivity |].
  assert (Hd : forall ok c st,
            Teacher.dictionary
              (snd (Teacher.handleFileImport ok (Teacher.Loaded c) st))
            = importedWords c) by (by intros []).
  rewrite !Hd. apply importedWords_of_clean, imported_words_clean.
Qed.

(** [checkWord] treats an input of white space only (the empty input
    included) as no input: the outcome is EmptyInput in both variants,
    the score and the dictionary stay, and the field is not cleared. *)
Theorem blank_input_is_empty_input
    (rawInput : jsstring) (pick : nat) (t : Teacher.State) (b : Basic.State) :
  Forall (fun c => isWhiteSpace c = true) rawInput ->
  let rt := Teacher.checkWord_of rawInput pick t in
  let rb := Basic.checkWord_of rawInput pick b in
  (fst rt = EmptyInput /\
   Teacher.score (snd rt) = Teacher.score t /\
   Teacher.dictionary (snd rt) = Teacher.dictionary t /\
   Teacher.wordInput_value (Teacher.page (snd rt)) = rawInput /\
   shown (Teacher.resultArea (Teacher.page (snd rt))) = TextContent msg_enter_a_word) /\
  (fst rb = EmptyInput /\
   Basic.score (snd rb) = Basic.score b /\
   Basic.dictionary (snd rb) = Basic.dictionary b /\
   Basic.wordInput_value (snd rb) = rawInput /\
   shown (Basic.resultArea (snd rb)) = TextContent msg_enter_a_word).
Proof.
  intros Hws.
  assert (Ht : trim rawInput = []).
  { apply trim_nil_iff. unfold all_space. apply forallb_forall.
    intros c Hin. rewrite Forall_forall in Hws. by apply Hws, list_elem_of_In. }
  cbv zeta.
  unfold Teacher.checkWord_of, Teacher.checkWord, Basic.checkWord_of, Basic.checkWord.
  cbn [Teacher.wordInput_value Teacher.set_wordInput_value Teacher.set_page
       Teacher.page Basic.wordInput_value Basic.set_wordInput_value].
  rewrite Ht. by cbn.
Qed.

(** The blank input of one space and one tab. *)
Lemma blank_input_is_empty_input_witness :
  fst (Teacher.checkWord_of [32; 9] 0 teacher_with_kataba) = EmptyInput /\
  fst (Basic.checkWord_of [32; 9] 0 basic_loaded) = EmptyInput.
Proof.
  destruct (blank_input_is_empty_input [32; 9] 0 teacher_with_kataba basic_loaded)
    as ((H1 & _) & (H2 & _)).
  - repeat constructor.
  - exact (conj H1 H2).
Defined.

(** White space around the input plays no part in a check: the input and
    its trimmed form have the same outcome and leave the same score,
    dictionary and result area, in both variants. *)
Theorem checkWord_ignores_outer_space
    (rawInput : jsstring) (pick : nat) (t : Teacher.State) (b : Basic.State) :
  let rt := Teacher.checkWord_of rawInput pick t in
  let rt' := Teacher.checkWord_of (trim rawInput) pick t in
  let rb := Basic.checkWord_of rawInput pick b in
  let rb' := Basic.checkWord_of (trim rawInput) pick b in
  (fst rt = fst rt' /\
   Teacher.score (snd rt) = Teacher.score (snd rt') /\
   Teacher.dictionary (snd rt) = Teacher.dictionary (snd rt') /\
   Teacher.resultArea (Teacher.page (snd rt))
     = Teacher.resultArea (Teacher.page (snd rt'))) /\
  (fst rb = fst rb' /\
   Basic.score (snd rb) = Basic.score (snd rb') /\
   Basic.dictionary (snd rb) = Basic.dictionary (snd rb') /\
   Basic.resultArea (snd rb) = Basic.resultArea (snd rb')).
Proof.
  cbv zeta.
  unfold Teacher.checkWord_of, Teacher.checkWord, Basic.checkWord_of, Basic.checkWord.
  cbn [Teacher.wordInput_value Teacher.set_wordInput_value Teacher.set_page
       Teacher.page Basic.wordInput_value Basic.set_wordInput_value].
  rewrite trim_idempotent. split.
  - destruct (str_eqb _ []); [done |].
    unfold Teacher.isWordInDictionary. cbn [Teacher.dictionary Teacher.set_resultArea Teacher.set_page].
    by destruct (includes _ _).
  - destruct (str_eqb _ []); [done |].
    destruct (negb _); [done |].
    unfold Basic.isWordInDictionary. cbn [Basic.dictionary Basic.set_resultArea].
    by destruct (includes _ _).
Qed.

(** ** The loader on an arbitrary text *)

Lemma trimmed_lines_app l1 l2 :
  trimmed_lines (l1 ++ l2) = trimmed_lines l1 ++ trimmed_lines l2.
Proof. unfold trimmed_lines. by rewrite map_app, List.filter_app. Qed.

Lemma trim_cons_space c p : isWhiteSpace c = true -> trim (c :: p) = trim p.
Proof. intros Hc. unfold trim. simpl. by rewrite Hc. Qed.

Lemma trimEnd_snoc_space x c :
  isWhiteSpace c = true -> trimEnd (x ++ [c]) = trimEnd x.
Proof.
  intros Hc. unfold trimEnd. rewrite rev_app_distr. simpl. by rewrite Hc.
Qed.

Lemma trimStart_app p l :
  trimStart p <> [] -> trimStart (p ++ l) = trimStart p ++ l.
Proof.
  induction p as [|x p IH]; simpl; [done |].
  by destruct (isWhiteSpace x).
Qed.

Lemma trim_snoc_space p c : isWhiteSpace c = true -> trim (p ++ [c]) = trim p.
Proof.
  intros Hc. destruct (decide (trimStart p = [])) as [E | Hne].
  - assert (Hp : all_space p = true) by (by apply trimStart_nil_iff).
    rewrite (proj2 (trim_nil_iff p) Hp). apply trim_nil_iff.
    unfold all_space in *. rewrite forallb_app, Hp. simpl. by rewrite Hc.
  - unfold trim. rewrite trimStart_app by done. by apply trimEnd_snoc_space.
Qed.

Lemma split_LF_snoc s c :
  exists init lp,
    split_LF s = init ++ [lp] /\
    split_LF (s ++ [c]) =
      if c =? LF then init ++ [lp; []] else init ++ [lp ++ [c]].
Proof.
  induction s as [|x s (init & lp & Hs & Hsc)]; simpl.
  - exists [], []. split; [done |]. by destruct (c =? LF).
  - rewrite Hs, Hsc. destruct (x =? LF).
    + exists ([] :: init), lp. split; [done |]. by destruct (c =? LF).
    + destruct init as [|p init]; simpl.
      * exists [], (x :: lp). split; [done |]. by destruct (c =? LF).
      * exists ((x :: p) :: init), lp. split; [done |]. by destruct (c =? LF).
Qed.

Lemma trimmed_lines_snoc_space s c :
  isWhiteSpace c = true ->
  trimmed_lines (split_LF (s ++ [c])) = trimmed_lines (split_LF s).
Proof.
  intros Hc. destruct (split_LF_snoc s c) as (init & lp & -> & ->).
  destruct (c =? LF).
  - change [lp; []] with ([lp] ++ [[]]).
    rewrite app_assoc, (trimmed_lines_app (init ++ [lp])).
    apply app_nil_r.
  - rewrite !trimmed_lines_app. f_equal.
    unfold trimmed_lines. simpl. by rewrite trim_snoc_space.
Qed.

Lemma trimmed_lines_trimStart s :
  trimmed_lines (split_LF (trimStart s)) = trimmed_lines (split_LF s).
Proof.
  induction s as [|c s IH]; simpl; [done |].
  destruct (isWhiteSpace c) eqn:Hc; [| done].
  rewrite IH. destruct (c =? LF); [done |].
  destruct (split_LF s) as [|p ps]; unfold trimmed_lines; simpl.
  - by rewrite (trim_cons_space c []).
  - by rewrite trim_cons_space.
Qed.

Lemma trimmed_lines_trimEnd s :
  trimmed_lines (split_LF (trimEnd s)) = trimmed_lines (split_LF s).
Proof.
  induction s as [|c s IH] using rev_ind; [done |].
  destruct (isWhiteSpace c) eqn:Hc.
  - by rewrite trimEnd_snoc_space, trimmed_lines_snoc_space.
  - by rewrite (trimEnd_keep (s ++ [c]) c (last_snoc _ _) Hc).
Qed.

(** The words a loader gets from a text are exactly the lines of the
    text that are not blank, each trimmed: trimming the whole text first,
    as the script does, changes nothing.  So blank lines anywhere, white
    space around a word and a carriage return before the line feed are
    all dropped. *)
Theorem imported_words_are_trimmed_lines (content : jsstring) :
  importedWords content
  = List.filter (fun word => (0 <? length word)%nat)
      (map (fun word => trim word) (split_LF content)).
Proof.
  change (trimmed_lines (split_LF (trim content))
          = trimmed_lines (split_LF content)).
  unfold trim. by rewrite trimmed_lines_trimEnd, trimmed_lines_trimStart.
Qed.

Lemma importedWords_lines content :
  importedWords content = trimmed_lines (split_LF content).
Proof.
  change (trimmed_lines (split_LF (trim content))
          = trimmed_lines (split_LF content)).
  unfold trim. by rewrite trimmed_lines_trimEnd, trimmed_lines_trimStart.
Qed.

(** A text put together from lines without line feeds, joined by line
    feeds, is read back as those lines, trimmed, without the blank ones:
    padding a line of an exported file or adding blank lines to it does
    not change what the import gives. *)
Theorem import_of_joined_lines (lines : list jsstring) :
  Forall (fun l => ~ In LF l) lines ->
  importedWords (join_LF lines)
  = List.filter (fun word => (0 <? length word)%nat)
      (map (fun word => trim word) lines).
Proof.
  intros Hl. rewrite importedWords_lines.
  destruct lines as [|l lines]; [reflexivity |].
  rewrite split_join_LF; [done.. |].
  eapply Forall_impl; [exact Hl |]. intros w. apply single_line_spec.
Qed.

(** Two words with a carriage return, padding and blank lines around
    them. *)
Lemma import_of_joined_lines_witness :
  importedWords (join_LF [[]; [32; 1575; 1576; 1580; 13]; [9]; [1576; 1580; 1583; 13]; []])
  = [abj; bjd].
Proof.
  rewrite (import_of_joined_lines
             [[]; [32; 1575; 1576; 1580; 13]; [9]; [1576; 1580; 1583; 13]; []]).
  - reflexivity.
  - repeat constructor; simpl; unfold LF; lia.
Defined.

(** ** Start-up *)




(** ** More on adding a word *)

(** A refused add (blank input, wrong format, or a word that is already
    there) changes nothing but the teacher's message, which gets the error
    style: score, dictionary, storage and both input fields stay as they
    are, and the typed text is not cleared.  Blank input is refused as
    EmptyInput and any other text that is not three Arabic characters as
    InvalidFormat, before the dictionary is looked at. *)
Theorem refused_add_only_shows_message
    (rawInput : jsstring) (persist_ok : bool) (s : Teacher.State) :
  let typed := Teacher.set_newWordInput_value rawInput s in
  let r := Teacher.addNewWord_of rawInput persist_ok s in
  (Forall (fun c => isWhiteSpace c = true) rawInput ->
     fst r = Teacher.AddEmptyInput) /\
  (trim rawInput <> [] -> isValidWordFormat (trim rawInput) = false ->
     fst r = Teacher.AddInvalidFormat) /\
  (fst r <> Teacher.Added ->
     snd r =
       Teacher.set_teacherResultArea
         {| shown := shown (Teacher.teacherResultArea (Teacher.page (snd r)));
            className := units "teacher-result-area teacher-error" |}
         typed).
Proof.
  cbv zeta.
  unfold Teacher.addNewWord_of, Teacher.addNewWord, Teacher.isWordInDictionary.
  cbn [Teacher.newWordInput_value Teacher.set_newWordInput_value Teacher.set_page
       Teacher.page Teacher.dictionary].
  split; [| split].
  - intros Hws.
    assert (Ht : trim rawInput = []).
    { apply trim_nil_iff. unfold all_space. apply forallb_forall.
      intros c Hin. rewrite Forall_forall in Hws. by apply Hws, list_elem_of_In. }
    by rewrite Ht.
  - intros Hne%str_eqb_nil Hv. by rewrite Hne, Hv.
  - destruct (str_eqb _ []); [done |].
    destruct (isValidWordFormat _); [| done].
    destruct (includes _ _); [done |].
    by destruct persist_ok.
Qed.

(** Adding "xyz" to a dictionary that holds "كتب". *)
Lemma refused_add_only_shows_message_witness :
  fst (Teacher.addNewWord_of [32] true teacher_with_kataba)
    = Teacher.AddEmptyInput /\
  fst (Teacher.addNewWord_of xyz true teacher_with_kataba)
    = Teacher.AddInvalidFormat /\
  Teacher.dictionary (snd (Teacher.addNewWord_of xyz true teacher_with_kataba))
    = [kataba].
Proof.
  destruct (refused_add_only_shows_message [32] true teacher_with_kataba)
    as (H1 & _).
  destruct (refused_add_only_shows_message xyz true teacher_with_kataba)
    as (_ & H2 & H3).
  split; [apply H1; repeat constructor |].
  split; [apply H2; [discriminate | reflexivity] |].
  rewrite H3; [reflexivity | discriminate].
Defined.

Lemma NoDup_snoc (d : list jsstring) w : ~ In w d -> List.NoDup d -> List.NoDup (d ++ [w]).
Proof.
  intros Hnot Hnd. induction Hnd as [|x d Hx Hnd IH]; simpl.
  - constructor; [by intros [] | constructor].
  - constructor.
    + rewrite in_app_iff. intros [H | [-> | []]]; [done |].
      apply Hnot. by left.
    + apply IH. intros H. apply Hnot. by right.
Qed.

(** [addNewWord] only ever appends: the old dictionary is kept, in order,
    with at most one word after it.  If the dictionary had no word twice,
    it has none twice afterwards; if all its words had three Arabic
    characters, all have afterwards. *)
Theorem add_keeps_dictionary_well_formed
    (rawInput : jsstring) (persist_ok : bool) (s : Teacher.State) :
  let d := Teacher.dictionary s in
  let d' := Teacher.dictionary (snd (Teacher.addNewWord_of rawInput persist_ok s)) in
  (d' = d \/ d' = d ++ [trim rawInput]) /\
  (List.NoDup d -> List.NoDup d') /\
  (Forall (fun w => isValidWordFormat w = true) d ->
   Forall (fun w => isValidWordFormat w = true) d').
Proof.
  cbv zeta.
  destruct (Teacher_addNewWord_cases rawInput persist_ok s) as (Hk & Hd & _).
  cbv zeta in Hk, Hd. rewrite Hd, Hk. clear Hk Hd.
  destruct (str_eqb _ []); [by split; [left |] |].
  destruct (isValidWordFormat (trim rawInput)) eqn:Hv; [| by split; [left |]].
  cbn [negb].
  destruct (includes _ _) eqn:Hin; [by split; [left |] |].
  split; [by right |]. split.
  - apply NoDup_snoc. rewrite <- includes_In. by rewrite Hin.
  - intros Hall. apply Forall_app. split; [done |]. by constructor.
Qed.

(** A dictionary of one word, to which "ابج" is added. *)
Lemma add_keeps_dictionary_well_formed_witness :
  List.NoDup (Teacher.dictionary (snd (Teacher.addNewWord_of abj true teacher_with_kataba))) /\
  Forall (fun w => isValidWordFormat w = true)
    (Teacher.dictionary (snd (Teacher.addNewWord_of abj true teacher_with_kataba))).
Proof.
  destruct (add_keeps_dictionary_well_formed abj true teacher_with_kataba)
    as (_ & Hnd & Hv).
  split.
  - apply Hnd. constructor; [by intros [] | constructor].
  - apply Hv. by repeat constructor.
Defined.

(** ** Storage *)

(** What is saved is what is loaded: after an add or an import whose
    write to [localStorage] went through, the value under
    [arabicDictionary] is the dictionary of that moment, and a later
    session started on that storage has the same dictionary without
    fetching [words.txt]. *)
Theorem saved_dictionary_is_reloaded
    (rawInput content : jsstring) (s : Teacher.State) (page1 : Teacher.Page) :
  let a := Teacher.addNewWord_of rawInput true s in
  let i := Teacher.handleFileImport true (Teacher.Loaded content) s in
  let reload (s' : Teacher.State) :=
    Teacher.initGame (Teacher.initial page1 (Teacher.localStorage s')) in
  (fst a = Teacher.Added ->
     Teacher.localStorage (snd a) !! "arabicDictionary"
       = Some (Teacher.JSON_stringify (Teacher.dictionary (snd a))) /\
     Teacher.dictionary (reload (snd a)) = Teacher.dictionary (snd a) /\
     Teacher.requests (reload (snd a)) = []) /\
  (Teacher.localStorage (snd i) !! "arabicDictionary"
     = Some (Teacher.JSON_stringify (Teacher.dictionary (snd i))) /\
   Teacher.dictionary (reload (snd i)) = Teacher.dictionary (snd i) /\
   Teacher.requests (reload (snd i)) = []).
Proof.
  cbv zeta.
  assert (Hload : forall st d,
            Teacher.localStorage st !! "arabicDictionary"
              = Some (Teacher.JSON_stringify d) ->
            Teacher.dictionary
              (Teacher.initGame (Teacher.initial page1 (Teacher.localStorage st))) = d /\
            Teacher.requests
              (Teacher.initGame (Teacher.initial page1 (Teacher.localStorage st))) = []).
  { intros st d Hst. unfold Teacher.initGame.
    cbn [Teacher.localStorage Teacher.initial]. by rewrite Hst. }
  split.
  - intros Ha.
    destruct (Teacher_addNewWord_cases rawInput true s) as (_ & Hd & Hl & _).
    cbv zeta in Hd, Hl. rewrite Ha in Hd, Hl.
    assert (Hst : Teacher.localStorage (snd (Teacher.addNewWord_of rawInput true s))
                    !! "arabicDictionary"
                  = Some (Teacher.JSON_stringify
                            (Teacher.dictionary (snd (Teacher.addNewWord_of rawInput true s))))).
    { rewrite Hl, Hd. apply lookup_insert_eq. }
    split; [exact Hst |]. by apply Hload.
  - assert (Hst : Teacher.localStorage
                    (snd (Teacher.handleFileImport true (Teacher.Loaded content) s))
                    !! "arabicDictionary"
                  = Some (Teacher.JSON_stringify
                            (Teacher.dictionary
                               (snd (Teacher.handleFileImport true
                                       (Teacher.Loaded content) s))))).
    { apply lookup_insert_eq. }
    split; [exact Hst |]. by apply Hload.
Qed.

(** Adding "ابج" with a working storage, then reloading. *)
Lemma saved_dictionary_is_reloaded_witness :
  Teacher.dictionary
    (Teacher.initGame
       (Teacher.initial blank_page
          (Teacher.localStorage
             (snd (Teacher.addNewWord_of abj true teacher_with_kataba)))))
  = Teacher.dictionary (snd (Teacher.addNewWord_of abj true teacher_with_kataba)).
Proof.
  destruct (saved_dictionary_is_reloaded abj [] teacher_with_kataba blank_page)
    as (Ha & _).
  apply Ha. reflexivity.
Defined.

(** A change made while the storage refuses the write is lost at the next
    start.  If the storage held the dictionary of the moment, then after
    an add or an import with a failing write, a session started on that
    storage has the dictionary from before the change: the added word is
    not in it. *)
Theorem unsaved_change_is_lost_on_reload
    (rawInput content : jsstring) (s : Teacher.State) (page1 : Teacher.Page) :
  Teacher.localStorage s !! "arabicDictionary"
    = Some (Teacher.JSON_stringify (Teacher.dictionary s)) ->
  let a := Teacher.addNewWord_of rawInput false s in
  let i := Teacher.handleFileImport false (Teacher.Loaded content) s in
  let reload (s' : Teacher.State) :=
    Teacher.initGame (Teacher.initial page1 (Teacher.localStorage s')) in
  Teacher.dictionary (reload (snd a)) = Teacher.dictionary s /\
  (fst a = Teacher.Added ->
     In (trim rawInput) (Teacher.dictionary (snd a)) /\
     ~ In (trim rawInput) (Teacher.dictionary (reload (snd a)))) /\
  Teacher.dictionary (reload (snd i)) = Teacher.dictionary s.
Proof.
  intros Hsync. cbv zeta.
  destruct (Teacher_addNewWord_cases rawInput false s) as (Hk & Hd & Hl & _).
  cbv zeta in Hk, Hd, Hl.
  assert (Hl' : Teacher.localStorage (snd (Teacher.addNewWord_of rawInput false s))
                = Teacher.localStorage s).
  { rewrite Hl. by destruct (fst _). }
  assert (Hload : forall st,
            Teacher.localStorage st = Teacher.localStorage s ->
            Teacher.dictionary
              (Teacher.initGame (Teacher.initial page1 (Teacher.localStorage st)))
            = Teacher.dictionary s).
  { intros st ->. unfold Teacher.initGame.
    cbn [Teacher.localStorage Teacher.initial]. by rewrite Hsync. }
  split; [by apply Hload |]. split; [| by apply Hload].
  intros Ha. rewrite (Hload _ Hl'). rewrite Ha in Hd, Hk. rewrite Hd. split.
  - apply in_app_iff. right. by left.
  - rewrite <- includes_In.
    destruct (str_eqb _ []); [discriminate |].
    destruct (negb _); [discriminate |].
    by destruct (includes _ _).
Qed.

(** The storage holds "كتب"; "ابج" is added while writes fail. *)
Lemma unsaved_change_is_lost_on_reload_witness :
  let s :=
    Teacher.setItem "arabicDictionary" (Teacher.JsonArray [kataba])
      teacher_with_kataba in
  Teacher.dictionary
    (Teacher.initGame
       (Teacher.initial blank_page
          (Teacher.localStorage (snd (Teacher.addNewWord_of abj false s)))))
  = [kataba].
Proof.
  cbv zeta.
  destruct (unsaved_change_is_lost_on_reload abj []
              (Teacher.setItem "arabicDictionary" (Teacher.JsonArray [kataba])
                 teacher_with_kataba)
              blank_page (lookup_insert_eq _ _ _))
    as (H & _).
  exact H.
Defined.

(** ** What an event can change *)

Lemma Teacher_same_newWord s :
  Teacher.set_newWordInput_value (Teacher.newWordInput_value (Teacher.page s)) s = s.
Proof. by destruct s as [? ? [] ? ? ?]. Qed.

Lemma Teacher_same_word s :
  Teacher.set_wordInput_value (Teacher.wordInput_value (Teacher.page s)) s = s.
Proof. by destruct s as [? ? [] ? ? ?]. Qed.

Lemma Basic_same_word s :
  Basic.set_wordInput_value (Basic.wordInput_value s) s = s.
Proof. by destruct s. Qed.

Lemma Teacher_addNewWord_as_of ok s :
  Teacher.addNewWord ok s
  = Teacher.addNewWord_of (Teacher.newWordInput_value (Teacher.page s)) ok s.
Proof. unfold Teacher.addNewWord_of. by rewrite Teacher_same_newWord. Qed.

Lemma Teacher_checkWord_as_of pick s :
  Teacher.checkWord pick s
  = Teacher.checkWord_of (Teacher.wordInput_value (Teacher.page s)) pick s.
Proof. unfold Teacher.checkWord_of. by rewrite Teacher_same_word. Qed.

Lemma Basic_checkWord_as_of pick s :
  Basic.checkWord pick s = Basic.checkWord_of (Basic.wordInput_value s) pick s.
Proof. unfold Basic.checkWord_of. by rewrite Basic_same_word. Qed.

Lemma Teacher_import_dictionary ok content s :
  Teacher.dictionary (snd (Teacher.handleFileImport ok (Teacher.Loaded content) s))
  = importedWords content.
Proof. by destruct ok. Qed.

Lemma Teacher_handle_dictionary (e : Teacher.event) (s : Teacher.State) :
  let d := Teacher.dictionary s in
  let d' := Teacher.dictionary (Teacher.handle e s) in
  match e with
  | Teacher.ClickAdd persist_ok =>
      (fst (Teacher.addNewWord persist_ok s) = Teacher.Added /\
       d' = d ++ [trim (Teacher.newWordInput_value (Teacher.page s))]) \/
      (fst (Teacher.addNewWord persist_ok s) <> Teacher.Added /\ d' = d)
  | Teacher.FileChange _ (Teacher.Loaded content) => d' = importedWords content
  | Teacher.FetchSettled (Some text) =>
      d' = if Teacher.awaiting_fetch s then importedWords text else d
  | _ => d' = d
  end.
Proof.
  cbv zeta.
  destruct e as [v|v|pick| |ok|ok| |ok [| |content]|[text|]]; try reflexivity.
  - simpl. rewrite Teacher_checkWord_as_of. apply Teacher_checkWord_cases.
  - simpl. rewrite Teacher_addNewWord_as_of.
    destruct (Teacher_addNewWord_cases
                (Teacher.newWordInput_value (Teacher.page s)) ok s) as (_ & Hd & _).
    cbv zeta in Hd. rewrite Hd.
    destruct (fst _); [by right | by right | by right | by left].
  - by destruct ok.
  - apply Teacher_import_dictionary.
  - simpl. by destruct (Teacher.awaiting_fetch s).
  - simpl. by destruct (Teacher.awaiting_fetch s).
Qed.

(** Only three things change the dictionary of the second variant: a
    successful add appends the trimmed new word, a loaded import file
    replaces it by the words of the file, and the settled start-up fetch,
    if one is pending, replaces it by the words of the response.  Editing
    a field, checking a word, toggling the panel, exporting, opening the
    file picker, a cancelled or unreadable file and a failed fetch leave
    it as it is. *)
Theorem dictionary_changes_only_by_add_import_load
    (e : Teacher.event) (s : Teacher.State) :
  let d := Teacher.dictionary s in
  let d' := Teacher.dictionary (Teacher.handle e s) in
  match e with
  | Teacher.ClickAdd persist_ok =>
      (fst (Teacher.addNewWord persist_ok s) = Teacher.Added /\
       d' = d ++ [trim (Teacher.newWordInput_value (Teacher.page s))]) \/
      (fst (Teacher.addNewWord persist_ok s) <> Teacher.Added /\ d' = d)
  | Teacher.FileChange _ (Teacher.Loaded content) => d' = importedWords content
  | Teacher.FetchSettled (Some text) =>
      d' = if Teacher.awaiting_fetch s then importedWords text else d
  | _ => d' = d
  end.
Proof. exact (Teacher_handle_dictionary e s). Qed.

Lemma Teacher_handle_storage e s :
  Teacher.localStorage (Teacher.handle e s) = Teacher.localStorage s \/
  ((exists file, e = Teacher.ClickAdd true \/ e = Teacher.FileChange true file) /\
   Teacher.localStorage (Teacher.handle e s)
   = <["arabicDictionary" :=
         Teacher.JSON_stringify (Teacher.dictionary (Teacher.handle e s))]>
       (Teacher.localStorage s)).
Proof.
  destruct e as [v|v|pick| |ok|ok| |ok [| |content]|[text|]]; simpl;
    try (by left).
  - left. rewrite Teacher_checkWord_as_of. apply Teacher_checkWord_cases.
  - rewrite Teacher_addNewWord_as_of.
    destruct (Teacher_addNewWord_cases
                (Teacher.newWordInput_value (Teacher.page s)) ok s)
      as (_ & Hd & Hl & _).
    cbv zeta in Hd, Hl. rewrite Hl, Hd.
    destruct (fst _); try (by left).
    destruct ok; [right | by left]. split; [| done].
    exists Teacher.NoFile. by left.
  - left. by destruct ok.
  - destruct ok; [right | by left]. split; [| done].
    exists (Teacher.Loaded content). by right.
  - left. by destruct (Teacher.awaiting_fetch s).
  - left. by destruct (Teacher.awaiting_fetch s).
Qed.

(** The script writes to [localStorage] under its own key only, and what
    it writes is the dictionary as it is after the event: every other key
    keeps its value through every event, the key is never removed, and
    the storage changes only on an add or an import whose write goes
    through. *)
Theorem storage_holds_only_the_current_dictionary
    (e : Teacher.event) (s : Teacher.State) (key : string) :
  let s' := Teacher.handle e s in
  (key <> "arabicDictionary" ->
     Teacher.localStorage s' !! key = Teacher.localStorage s !! key) /\
  (is_Some (Teacher.localStorage s !! "arabicDictionary") ->
     is_Some (Teacher.localStorage s' !! "arabicDictionary")) /\
  (Teacher.localStorage s' <> Teacher.localStorage s ->
     (exists file, e = Teacher.ClickAdd true \/ e = Teacher.FileChange true file) /\
     Teacher.localStorage s' !! "arabicDictionary"
       = Some (Teacher.JSON_stringify (Teacher.dictionary s'))).
Proof.
  cbv zeta.
  destruct (Teacher_handle_storage e s) as [-> | [Hev ->]].
  - split; [done |]. split; [done |]. by intros [].
  - split; [| split].
    + intros Hk. by rewrite lookup_insert_ne.
    + intros _. rewrite lookup_insert_eq. by eexists.
    + intros _. split; [exact Hev |]. apply lookup_insert_eq.
Qed.

(** Another key in the storage, through an add that is saved. *)
Lemma storage_holds_only_the_current_dictionary_witness :
  let s :=
    Teacher.set_newWordInput_value abj
      (Teacher.setItem "theme" Teacher.EmptyText teacher_with_kataba) in
  Teacher.localStorage (Teacher.handle (Teacher.ClickAdd true) s) !! "theme"
    = Teacher.localStorage s !! "theme".
Proof.
  cbv zeta.
  destruct (storage_holds_only_the_current_dictionary (Teacher.ClickAdd true)
              (Teacher.set_newWordInput_value abj
                 (Teacher.setItem "theme" Teacher.EmptyText teacher_with_kataba))
              "theme") as (H & _).
  apply H. discriminate.
Defined.

(** ** Whole sessions *)

Lemma Teacher_handle_clean e s :
  Forall (fun w => clean w = true) (Teacher.dictionary s) ->
  Forall (fun w => clean w = true) (Teacher.dictionary (Teacher.handle e s)).
Proof.
  intros Hc. pose proof (Teacher_handle_dictionary e s) as Hd. cbv zeta in Hd.
  destruct e as [v|v|pick| |ok|ok| |ok [| |content]|[text|]];
    try (by rewrite Hd).
  - destruct Hd as [[Ha ->] | [_ ->]]; [| done].
    apply Forall_app. split; [done |]. constructor; [| done].
    apply valid_format_clean.
    rewrite Teacher_addNewWord_as_of in Ha.
    destruct (Teacher_addNewWord_cases
                (Teacher.newWordInput_value (Teacher.page s)) ok s) as (Hk & _).
    cbv zeta in Hk. rewrite Ha in Hk.
    destruct (str_eqb _ []); [discriminate |].
    by destruct (isValidWordFormat _).
  - rewrite Hd. apply imported_words_clean.
  - rewrite Hd. destruct (Teacher.awaiting_fetch s); [| done].
    apply imported_words_clean.
Qed.

Lemma Teacher_run_clean es s :
  Forall (fun w => clean w = true) (Teacher.dictionary s) ->
  Forall (fun w => clean w = true) (Teacher.dictionary (Teacher.run es s)).
Proof.
  revert s. induction es as [|e es IH]; intros s Hc; [done |].
  apply IH. by apply Teacher_handle_clean.
Qed.

(** In a session that starts from an empty storage, or from a stored
    dictionary whose entries are non-empty, without white space at the
    ends and without line feeds, the exported file always restores the
    dictionary: at any point of the session, [exportDictionary] offers
    the download [words_updated.txt], and importing that text gives back
    exactly the dictionary that was exported. *)
Theorem exported_file_restores_dictionary
    (page0 : Teacher.Page) (storage : gmap string Teacher.blob)
    (es : list Teacher.event) (persist_ok : bool) :
  (forall d, storage !! "arabicDictionary" = Some (Teacher.JsonArray d) ->
             Forall (fun w => clean w = true) d) ->
  let s := Teacher.run es (Teacher.initGame (Teacher.initial page0 storage)) in
  let exported := Teacher.exportDictionary true s in
  head (Teacher.requests exported)
    = Some (Teacher.Download "words_updated.txt" (join_LF (Teacher.dictionary s))) /\
  Teacher.dictionary
    (snd (Teacher.handleFileImport persist_ok
            (Teacher.Loaded (join_LF (Teacher.dictionary s))) exported))
  = Teacher.dictionary s.
Proof.
  intros Hst. cbv zeta. split; [reflexivity |].
  rewrite Teacher_import_dictionary. apply importedWords_of_clean.
  apply Teacher_run_clean. unfold Teacher.initGame.
  cbn [Teacher.localStorage Teacher.initial].
  destruct (storage !! "arabicDictionary") as [[|d|]|] eqn:Hs; simpl;
    try constructor.
  by apply Hst.
Qed.

(** A session on a stored "كتب": "ابج" is added, then the dictionary is
    exported and the file imported. *)
Lemma exported_file_restores_dictionary_witness :
  let s :=
    Teacher.run [Teacher.EditNewWord abj; Teacher.ClickAdd true]
      (Teacher.initGame
         (Teacher.initial blank_page
            {[ "arabicDictionary" := Teacher.JsonArray [kataba] ]})) in
  Teacher.dictionary
    (snd (Teacher.handleFileImport true
            (Teacher.Loaded (join_LF (Teacher.dictionary s)))
            (Teacher.exportDictionary true s)))
  = Teacher.dictionary s.
Proof.
  cbv zeta.
  apply (exported_file_restores_dictionary blank_page
           {[ "arabicDictionary" := Teacher.JsonArray [kataba] ]}
           [Teacher.EditNewWord abj; Teacher.ClickAdd true] true).
  intros d Hd. rewrite lookup_singleton_eq in Hd.
  injection Hd as <-. by repeat constructor.
Defined.

Lemma Teacher_gain_check e s :
  Teacher_gain e s <= Z.of_nat (Teacher_checks [e]).
Proof.
  unfold Teacher_checks. destruct e; simpl; try lia. destruct (Outcome_eq_dec _ _); lia.
Qed.

Lemma Basic_gain_check e s :
  Basic_gain e s <= Z.of_nat (Basic_checks [e]).
Proof.
  unfold Basic_checks. destruct e; simpl; try lia. destruct (Outcome_eq_dec _ _); lia.
Qed.

Lemma Teacher_checks_cons e es :
  Teacher_checks (e :: es) = (Teacher_checks [e] + Teacher_checks es)%nat.
Proof. unfold Teacher_checks. simpl. by destruct e. Qed.

Lemma Basic_checks_cons e es :
  Basic_checks (e :: es) = (Basic_checks [e] + Basic_checks es)%nat.
Proof. unfold Basic_checks. simpl. by destruct e. Qed.

Lemma Teacher_run_score es s :
  - 2 ^ 53 <= Teacher.score s <= 2 ^ 53 ->
  Teacher.score s <= Teacher.score (Teacher.run es s)
    <= Teacher.score s + Z.of_nat (Teacher_checks es) /\
  - 2 ^ 53 <= Teacher.score (Teacher.run es s) <= 2 ^ 53.
Proof.
  revert s. induction es as [|e es IH]; intros s Hs; [simpl; lia |].
  destruct (Teacher_handle_score_step e s Hs) as [Hstep Hr].
  specialize (IH (Teacher.handle e s) Hr).
  change (Teacher.run (e :: es) s) with (Teacher.run es (Teacher.handle e s)).
  rewrite Teacher_checks_cons.
  pose proof (Teacher_gain_check e s). lia.
Qed.

Lemma Basic_run_score es s :
  - 2 ^ 53 <= Basic.score s <= 2 ^ 53 ->
  Basic.score s <= Basic.score (Basic_run es s)
    <= Basic.score s + Z.of_nat (Basic_checks es) /\
  - 2 ^ 53 <= Basic.score (Basic_run es s) <= 2 ^ 53.
Proof.
  revert s. induction es as [|e es IH]; intros s Hs; [simpl; lia |].
  destruct (Basic_handle_score_step e s Hs) as [Hstep Hr].
  specialize (IH (Basic.handle e s) Hr).
  change (Basic_run (e :: es) s) with (Basic_run es (Basic.handle e s)).
  rewrite Basic_checks_cons.
  pose proof (Basic_gain_check e s). lia.
Qed.

(** Over any run of events that starts with a score within 2^53 in
    magnitude (as every score of a session is), the score never goes
    down, and it goes up by at most the number of checks asked for in the
    run; nothing the teacher panel does (add, import, export, toggle)
    moves it.  This holds in both variants.  (Beyond 2^53 a number moves
    in steps of 2 or more, so one check can add more than 1 there.) *)
Theorem score_bounded_by_checks
    (ts : list Teacher.event) (t : Teacher.State)
    (bs : list Basic.event) (b : Basic.State) :
  (- 2 ^ 53 <= Teacher.score t <= 2 ^ 53 ->
   Teacher.score t <= Teacher.score (Teacher.run ts t)
     <= Teacher.score t + Z.of_nat (Teacher_checks ts)) /\
  (- 2 ^ 53 <= Basic.score b <= 2 ^ 53 ->
   Basic.score b <= Basic.score (Basic_run bs b)
     <= Basic.score b + Z.of_nat (Basic_checks bs)).
Proof.
  split; intros Hs; [by apply Teacher_run_score | by apply Basic_run_score].
Qed.

(** Two checks of "كتب", one of them with the field left blank. *)
Lemma score_bounded_by_checks_witness :
  Teacher.score teacher_with_kataba
    <= Teacher.score
         (Teacher.run [Teacher.EditWord kataba; Teacher.ClickCheck 0;
                       Teacher.ClickCheck 1] teacher_with_kataba)
    <= Teacher.score teacher_with_kataba + 2 /\
  Basic.score basic_loaded
    <= Basic.score
         (Basic_run [Basic.EditWord kataba; Basic.ClickCheck 0;
                     Basic.ClickCheck 1] basic_loaded)
    <= Basic.score basic_loaded + 2.
Proof.
  destruct (score_bounded_by_checks
              [Teacher.EditWord kataba; Teacher.ClickCheck 0; Teacher.ClickCheck 1]
              teacher_with_kataba
              [Basic.EditWord kataba; Basic.ClickCheck 0; Basic.ClickCheck 1]
              basic_loaded) as (Ht & Hb).
  split; [apply Ht | apply Hb]; simpl; lia.
Defined.

(** Why the bound is there: from a score of 2^53 + 2 one Correct check
    takes the score to 2^53 + 4. *)
Example one_check_adds_two_beyond_limit :
  Teacher.score
    (Teacher.run [Teacher.EditWord kataba; Teacher.ClickCheck 0]
       (teacher_after_checks (2 ^ 53 + 2)))
  = 2 ^ 53 + 4.
Proof. reflexivity. Qed.

(** ** The page after a check *)

Lemma Teacher_handle_display e s :
  Teacher.scoreDisplay_textContent (Teacher.page (Teacher.handle e s)) =
    if Teacher_gain e s =? 1 then Number_toString (number_add (Teacher.score s) 1)
    else Teacher.scoreDisplay_textContent (Teacher.page s).
Proof.
  destruct e as [v|v|pick| |ok|ok| |ok [| |content]|[text|]]; simpl;
    try reflexivity.
  - unfold Teacher.checkWord.
    destruct (str_eqb _ []); [done |].
    by destruct (Teacher.isWordInDictionary _ _).
  - unfold Teacher.addNewWord.
    destruct (str_eqb _ []); [done |].
    destruct (negb _); [done |].
    destruct (Teacher.isWordInDictionary _ _); [done |].
    by destruct ok.
  - by destruct ok.
  - by destruct ok.
  - by destruct (Teacher.awaiting_fetch s).
  - by destruct (Teacher.awaiting_fetch s).
Qed.

Lemma Basic_handle_display e s :
  Basic.scoreDisplay_textContent (Basic.handle e s) =
    if Basic_gain e s =? 1 then Number_toString (number_add (Basic.score s) 1)
    else Basic.scoreDisplay_textContent s.
Proof.
  destruct e as [v|pick]; simpl; [done |].
  unfold Basic.checkWord.
  destruct (str_eqb _ []); [done |].
  destruct (negb _); [done |].
  by destruct (Basic.isWordInDictionary _ _).
Qed.

Lemma Teacher_reachable_display s :
  Teacher.reachable s ->
  Teacher.score s = 0 \/
  Teacher.scoreDisplay_textContent (Teacher.page s) = Number_toString (Teacher.score s).
Proof.
  induction 1 as [page0 storage|e s _ IH].
  - left. by rewrite Teacher_initGame_score.
  - rewrite Teacher_handle_display, Teacher_handle_score.
    destruct (Teacher_gain e s =? 1); [by right | exact IH].
Qed.

Lemma Basic_reachable_display s :
  Basic.reachable s ->
  Basic.score s = 0 \/
  Basic.scoreDisplay_textContent s = Number_toString (Basic.score s).
Proof.
  induction 1 as [? ? ?|e s _ IH].
  - by left.
  - rewrite Basic_handle_display, Basic_handle_score.
    destruct (Basic_gain e s =? 1); [by right | exact IH].
Qed.

(** The score shown on the page is the score: in every state a session
    can reach, once a point has been scored the score display holds the
    decimal text of the current score (before that it holds what the page
    came with).  This holds in both variants. *)
Theorem displayed_score_is_the_score (t : Teacher.State) (b : Basic.State) :
  (Teacher.reachable t -> Teacher.score t <> 0 ->
     Teacher.scoreDisplay_textContent (Teacher.page t)
       = Number_toString (Teacher.score t)) /\
  (Basic.reachable b -> Basic.score b <> 0 ->
     Basic.scoreDisplay_textContent b = Number_toString (Basic.score b)).
Proof.
  split.
  - intros Hr Hs. by destruct (Teacher_reachable_display t Hr).
  - intros Hr Hs. by destruct (Basic_reachable_display b Hr).
Qed.

(** One Correct check in each variant: the display reads 1. *)
Lemma displayed_score_is_the_score_witness :
  Teacher.scoreDisplay_textContent
    (Teacher.page
       (Teacher.handle (Teacher.ClickCheck 0)
          (Teacher.handle (Teacher.EditWord kataba)
             (Teacher.initGame
                (Teacher.initial blank_page
                   {[ "arabicDictionary" := Teacher.JsonArray [kataba] ]})))))
    = [49] /\
  Basic.scoreDisplay_textContent
    (Basic.handle (Basic.ClickCheck 0)
       (Basic.handle (Basic.EditWord kataba) basic_loaded))
    = [49].
Proof.
  destruct (displayed_score_is_the_score
              (Teacher.handle (Teacher.ClickCheck 0)
                 (Teacher.handle (Teacher.EditWord kataba)
                    (Teacher.initGame
                       (Teacher.initial blank_page
                          {[ "arabicDictionary" := Teacher.JsonArray [kataba] ]}))))
              (Basic.handle (Basic.ClickCheck 0)
                 (Basic.handle (Basic.EditWord kataba) basic_loaded)))
    as (Ht & Hb).
  split.
  - rewrite Ht; [reflexivity | |].
    + do 2 apply Teacher.reach_event. apply Teacher.reach_loaded.
    + vm_compute. discriminate.
  - rewrite Hb; [reflexivity | |].
    + do 2 apply Basic.reach_event. apply Basic.reach_loaded.
    + vm_compute. discriminate.
Defined.

(** What a check leaves on the page.  After a check that consulted the
    dictionary (Correct or Incorrect) the word field is empty; after
    EmptyInput or InvalidFormat it still holds the input.  The result
    area gets the style [correct] for a Correct outcome and [incorrect]
    for every other, and an Incorrect message quotes the trimmed word.
    This holds in both variants. *)
Theorem checkWord_feedback
    (rawInput : jsstring) (pick : nat) (t : Teacher.State) (b : Basic.State) :
  let rt := Teacher.checkWord_of rawInput pick t in
  let rb := Basic.checkWord_of rawInput pick b in
  (Teacher.wordInput_value (Teacher.page (snd rt)) =
     match fst rt with Correct | Incorrect => [] | _ => rawInput end /\
   className (Teacher.resultArea (Teacher.page (snd rt))) =
     units "result-area " ++
     match fst rt with Correct => units "correct" | _ => units "incorrect" end /\
   match fst rt with
   | Incorrect =>
       shown (Teacher.resultArea (Teacher.page (snd rt))) =
         TextContent (tpl_incorrect_1 ++ trim rawInput ++ tpl_incorrect_2)
   | _ => True
   end) /\
  (Basic.wordInput_value (snd rb) =
     match fst rb with Correct | Incorrect => [] | _ => rawInput end /\
   className (Basic.resultArea (snd rb)) =
     units "result-area " ++
     match fst rb with Correct => units "correct" | _ => units "incorrect" end /\
   match fst rb with
   | Incorrect =>
       shown (Basic.resultArea (snd rb)) =
         TextContent (tpl_incorrect_1 ++ trim rawInput ++ tpl_incorrect_2)
   | _ => True
   end).
Proof.
  cbv zeta.
  unfold Teacher.checkWord_of, Teacher.checkWord, Basic.checkWord_of, Basic.checkWord.
  cbn [Teacher.wordInput_value Teacher.set_wordInput_value Teacher.set_page
       Teacher.page Basic.wordInput_value Basic.set_wordInput_value].
  split.
  - destruct (str_eqb _ []); [done |].
    by destruct (Teacher.isWordInDictionary _ _).
  - destruct (str_eqb _ []); [done |].
    destruct (negb _); [done |].
    by destruct (Basic.isWordInDictionary _ _).
Qed.

(** ** The built-in list, failed loads, the pending fetch, the key filter *)

(** In the first variant, in every state of a session, a check comes out
    Correct exactly when the trimmed input is one of the seventeen
    three-letter entries of the built-in list (its first seventeen). *)
Theorem basic_correct_exactly_for_three_letter_entries
    (rawInput : jsstring) (pick : nat) (b : Basic.State) :
  Basic.reachable b ->
  (fst (Basic.checkWord_of rawInput pick b) = Correct <->
   In (trim rawInput) (firstn 17 Basic.predefinedDictionary)).
Proof.
  intros Hd%Basic_reachable_dictionary.
  destruct (Basic_checkWord_cases rawInput pick b) as (_ & Hk & _).
  cbv zeta in Hk. rewrite Hk, Hd. clear Hk. split.
  - destruct (str_eqb _ []); [discriminate |].
    destruct (isValidWordFormat (trim rawInput)) eqn:Hv; [| discriminate].
    destruct (includes _ _) eqn:Hin; [| discriminate]. intros _.
    apply includes_In in Hin. simpl in Hin. simpl.
    repeat (destruct Hin as [Hin | Hin]; [tauto |]).
    repeat (destruct Hin as [Hin | Hin];
              [rewrite <- Hin in Hv; discriminate Hv |]).
    destruct Hin.
  - simpl. intros Hin.
    repeat (destruct Hin as [<- | Hin]; [reflexivity |]). destruct Hin.
Qed.

(** After [initGame], "كتب" is Correct. *)
Lemma basic_correct_exactly_for_three_letter_entries_witness :
  fst (Basic.checkWord_of kataba 0 basic_loaded) = Correct <->
  In (trim kataba) (firstn 17 Basic.predefinedDictionary).
Proof.
  apply (basic_correct_exactly_for_three_letter_entries kataba 0 basic_loaded).
  apply Basic.reach_loaded.
Defined.

(** When the dictionary cannot be loaded the game goes on without words.
    A stored value that [JSON.parse] rejects, or a fetch that fails when
    nothing is stored, leaves the dictionary empty, puts the error markup
    into the result area and ends the start-up; a rejected stored value
    does not make the script fall back on [words.txt].  With an empty
    dictionary every input that is not blank is Incorrect. *)
Theorem failed_load_leaves_empty_dictionary
    (page0 : Teacher.Page) (storage : gmap string Teacher.blob)
    (rawInput : jsstring) (pick : nat) (s : Teacher.State) :
  let loaded := Teacher.initGame (Teacher.initial page0 storage) in
  let failed := Teacher.handle (Teacher.FetchSettled None) loaded in
  (storage !! "arabicDictionary" = Some Teacher.Malformed ->
     Teacher.dictionary loaded = [] /\
     Teacher.awaiting_fetch loaded = false /\
     (forall url, ~ In (Teacher.Fetch url) (Teacher.requests loaded)) /\
     shown (Teacher.resultArea (Teacher.page loaded))
       = InnerHTML Teacher.msg_load_error) /\
  (storage !! "arabicDictionary" = None ->
     Teacher.dictionary failed = [] /\
     Teacher.awaiting_fetch failed = false /\
     shown (Teacher.resultArea (Teacher.page failed))
       = InnerHTML Teacher.msg_load_error) /\
  (Teacher.dictionary s = [] -> trim rawInput <> [] ->
     fst (Teacher.checkWord_of rawInput pick s) = Incorrect).
Proof.
  cbv zeta. unfold Teacher.initGame. cbn [Teacher.localStorage Teacher.initial].
  split; [| split].
  - intros ->. simpl. repeat split; try done.
    intros url [E | []]. discriminate E.
  - by intros ->.
  - intros Hd Hne%str_eqb_nil.
    destruct (Teacher_checkWord_cases rawInput pick s) as (_ & _ & _ & _ & Hk & _).
    cbv zeta in Hk. by rewrite Hk, Hne, Hd.
Qed.

(** A rejected stored value, a failed fetch, and "كتب" against the empty
    dictionary. *)
Lemma failed_load_leaves_empty_dictionary_witness :
  Teacher.dictionary
    (Teacher.initGame
       (Teacher.initial blank_page {[ "arabicDictionary" := Teacher.Malformed ]}))
    = [] /\
  Teacher.dictionary
    (Teacher.handle (Teacher.FetchSettled None)
       (Teacher.initGame (Teacher.initial blank_page ∅)))
    = [] /\
  fst (Teacher.checkWord_of kataba 0 (Teacher.initial blank_page ∅)) = Incorrect.
Proof.
  destruct (failed_load_leaves_empty_dictionary blank_page
              {[ "arabicDictionary" := Teacher.Malformed ]} kataba 0
              (Teacher.initial blank_page ∅)) as (H1 & _ & H3).
  destruct (failed_load_leaves_empty_dictionary blank_page ∅ kataba 0
              (Teacher.initial blank_page ∅)) as (_ & H2 & _).
  split; [apply H1; apply lookup_singleton_eq |].
  split; [apply H2; apply lookup_empty |].
  apply H3; [reflexivity | discriminate].
Defined.

Lemma Teacher_handle_awaiting e s :
  not_settling e = true ->
  Teacher.awaiting_fetch (Teacher.handle e s) = Teacher.awaiting_fetch s.
Proof.
  destruct e as [v|v|pick| |ok|ok| |ok file|text]; simpl; try done; intros _.
  - apply Teacher_checkWord_frame.
  - apply Teacher_addNewWord_frame.
  - by destruct ok.
  - apply Teacher_handleFileImport_frame.
Qed.

Lemma Teacher_run_awaiting es s :
  Forall (fun e => not_settling e = true) es ->
  Teacher.awaiting_fetch (Teacher.run es s) = Teacher.awaiting_fetch s.
Proof.
  intros Hes. revert s. induction Hes as [|e es He _ IH]; intros s; [done |].
  change (Teacher.run (e :: es) s) with (Teacher.run es (Teacher.handle e s)).
  by rewrite IH, Teacher_handle_awaiting.
Qed.

(** While the start-up fetch is pending, whatever the teacher adds or
    imports is only kept until the fetch settles: when the response
    arrives, the dictionary becomes the words of the response, whatever
    it was, and the storage is left as the events before had it. *)
Theorem settled_fetch_replaces_dictionary
    (es : list Teacher.event) (text : jsstring) (s : Teacher.State) :
  Teacher.awaiting_fetch s = true ->
  Forall (fun e => not_settling e = true) es ->
  let before := Teacher.run es s in
  let after := Teacher.handle (Teacher.FetchSettled (Some text)) before in
  Teacher.dictionary after = importedWords text /\
  Teacher.localStorage after = Teacher.localStorage before /\
  Teacher.awaiting_fetch after = false.
Proof.
  intros Hw Hes. cbv zeta. simpl.
  by rewrite (Teacher_run_awaiting es s Hes), Hw.
Qed.

(** Nothing is stored; "كتب" is imported before the response with the
    example file arrives. *)
Lemma settled_fetch_replaces_dictionary_witness :
  Teacher.dictionary
    (Teacher.handle (Teacher.FetchSettled (Some example_file))
       (Teacher.run [Teacher.FileChange true (Teacher.Loaded kataba)]
          (Teacher.initGame (Teacher.initial blank_page ∅))))
  = importedWords example_file.
Proof.
  apply (settled_fetch_replaces_dictionary
           [Teacher.FileChange true (Teacher.Loaded kataba)] example_file
           (Teacher.initGame (Teacher.initial blank_page ∅))).
  - reflexivity.
  - by repeat constructor.
Defined.

(** The key filter lets through exactly the characters the format check
    accepts.  For a key code below 65536, [restrictToArabic] suppresses
    the key press unless the code is in U+0621..U+064A or U+0660..U+0669;
    three keys that pass make a word of the valid format, and every
    character of a word of the valid format passes. *)
Theorem key_filter_agrees_with_format (which : Z) (word : jsstring) :
  (0 <= which < 65536 ->
     (restrictToArabic which = false <-> in_arabic_ranges which)) /\
  (length word = 3%nat ->
   Forall (fun c => 0 <= c < 65536 /\ restrictToArabic c = false) word ->
   isValidWordFormat word = true) /\
  (isValidWordFormat word = true ->
   Forall (fun c => restrictToArabic c = false) word).
Proof.
  assert (Hone : forall c, 0 <= c < 65536 ->
            (restrictToArabic c = false <-> in_arabic_ranges c)).
  { intros c Hc. unfold restrictToArabic.
    rewrite Z.mod_small by done. rewrite negb_false_iff.
    rewrite arabicRegex_test_spec. split.
    - intros [_ Hall]. by inversion Hall.
    - intros Hin. split; [done | by constructor]. }
  split; [apply Hone |]. split.
  - intros Hlen Hall. apply isValidWordFormat_true. split; [done |].
    eapply Forall_impl; [exact Hall |]. intros c [Hc Hr]. by apply Hone.
  - intros [_ Hall]%isValidWordFormat_true.
    eapply Forall_impl; [exact Hall |]. intros c Hin. apply Hone; [| done].
    unfold in_arabic_ranges in Hin. lia.
Qed.

(** The key "ك" passes, and the three keys of "كتب" make a valid word. *)
Lemma key_filter_agrees_with_format_witness :
  (restrictToArabic 1603 = false <-> in_arabic_ranges 1603) /\
  isValidWordFormat kataba = true /\
  Forall (fun c => restrictToArabic c = false) kataba.
Proof.
  destruct (key_filter_agrees_with_format 1603 kataba) as (H1 & H2 & H3).
  split; [apply H1; lia |].
  split; [apply H2; [reflexivity |] | apply H3; reflexivity].
  repeat constructor; lia.
Defined.
